(** * Phishing threat-intelligence ML service: feature extraction, model
    gateway and risk decision, embedded in Rocq.

    The development follows the three Python modules of [ml-service/app]:
    - [feature_extractor.py]  ->  [URLFeatureExtractor]
    - [model_loader.py]       ->  [ModelLoader]
    - [main.py]               ->  [Main]

    Conventions of the embedding.
    - A Python [str] is a Rocq [string]; a character is read as the code
      point of the same number (0..255, i.e. Latin-1).
    - A Python [int] is a [Z].  A Python [float] is the rational [Q] it
      denotes; the order is that of the values.  On the model path, where
      the program multiplies and rounds the probabilities of the
      classifier, the arithmetic is that of binary64 ([Binary64]): an
      operation returns the float nearest to the exact result.  Elsewhere
      (the score of the heuristic policy, the entropy) the arithmetic is
      that of the exact values.
    - A raising computation returns [Raise e] in the [result] monad; [try]
      blocks are matches on the result.
    - The interpreter state that the program shares (the class attribute
      [ModelLoader._instance], instance dictionaries, the model storage and
      the log of storage accesses) is an explicit [World].
    - Library entry points the program calls but does not define
      ([urllib.parse.urlparse], [tldextract.extract], [math.log2]) are the
      fields of the class [Libraries]; [Urllib] gives a model of CPython's
      [urlparse] used to run the program on concrete URLs. *)

From Stdlib Require Import ZArith QArith Qround Qabs Qpower String Ascii List.
From Stdlib Require Import Lia Lqa Bool.
From Stdlib Require PrimFloat FloatOps SpecFloat.
From stdpp Require Import gmap strings list.

(* ===================================================================== *)
(** * Python values, exceptions and [str] methods                         *)
(* ===================================================================== *)

Module Py.

(** Exception classes the program raises or handles.  A constructor stands
    for the class together with its subclasses (a handler for the class
    catches them all); [OtherException] is any other subclass of
    [Exception].  The argument is [str(e)]. *)
Inductive exc : Type :=
| RuntimeError (msg : string)
| ValueError (msg : string)
| FileNotFoundError (msg : string)
| IndexError (msg : string)
| KeyError (msg : string)
| AttributeError (msg : string)
| OtherException (msg : string).

Definition str_of_exc (e : exc) : string :=
  match e with
  | RuntimeError m | ValueError m | FileNotFoundError m | IndexError m
  | KeyError m | AttributeError m | OtherException m => m
  end.

(** [isinstance(e, RuntimeError)] and [isinstance(e, ValueError)]. *)
Definition is_RuntimeError (e : exc) : bool :=
  match e with RuntimeError _ => true | _ => false end.

Definition is_ValueError (e : exc) : bool :=
  match e with ValueError _ => true | _ => false end.

Definition is_FileNotFoundError (e : exc) : bool :=
  match e with FileNotFoundError _ => true | _ => false end.

(** The outcome of a Python expression: a value, or a raised exception. *)
Inductive result (A : Type) : Type :=
| Ok (a : A)
| Raise (e : exc).
Arguments Ok {A} a.
Arguments Raise {A} e.

#[global] Instance result_ret : MRet result := @Ok.
#[global] Instance result_bind : MBind result :=
  λ A B f m, match m with Ok a => f a | Raise e => Raise e end.
#[global] Instance result_fmap : FMap result :=
  λ A B f m, match m with Ok a => Ok (f a) | Raise e => Raise e end.

Definition returns {A} (m : result A) : Prop := ∃ a, m = Ok a.

(** ** Characters *)

Definition ord (c : ascii) : N := N_of_ascii c.

Definition in_range (lo hi : N) (c : ascii) : bool :=
  ((lo <=? ord c) && (ord c <=? hi))%N.

(** Decimal digits (category Nd): what [\d] matches. *)
Definition is_decimal (c : ascii) : bool := in_range 48 57 c.

(** [c.isdigit()]: the decimal digits and the superscripts 1, 2, 3. *)
Definition isdigit (c : ascii) : bool :=
  is_decimal c || (ord c =? 178)%N || (ord c =? 179)%N || (ord c =? 185)%N.

Definition is_ascii_alpha (c : ascii) : bool :=
  in_range 65 90 c || in_range 97 122 c.

(** [c.lower()] on Latin-1. *)
Definition lower_char (c : ascii) : ascii :=
  if in_range 65 90 c || in_range 192 214 c || in_range 216 222 c
  then ascii_of_N (ord c + 32) else c.

(** ** [str] methods *)

Definition len (s : string) : Z := Z.of_nat (String.length s).

Fixpoint lower (s : string) : string :=
  match s with
  | EmptyString => EmptyString
  | String c s' => String (lower_char c) (lower s')
  end.

Definition startswith (s pre : string) : bool := String.prefix pre s.

Definition endswith (s suf : string) : bool :=
  let n := String.length s in
  let m := String.length suf in
  (m <=? n)%nat && String.eqb (String.substring (n - m) m s) suf.

(** [sub in s]. *)
Fixpoint contains (sub s : string) : bool :=
  String.prefix sub s
  || match s with
     | EmptyString => false
     | String _ s' => contains sub s'
     end.

(** [s.count(sub)]: occurrences that do not overlap, scanning from the
    left; [skip] characters of the last occurrence are still to be passed. *)
Fixpoint count_from (sub : string) (skip : nat) (s : string) : Z :=
  match s with
  | EmptyString => 0
  | String _ s' =>
      match skip with
      | S k => count_from sub k s'
      | O =>
          if String.prefix sub s
          then 1 + count_from sub (String.length sub - 1) s'
          else count_from sub 0 s'
      end
  end%Z.

Definition count (s sub : string) : Z :=
  match sub with
  | EmptyString => (len s + 1)%Z
  | _ => count_from sub 0 s
  end.

(** [s.split(sep)] for a one-character separator: never empty. *)
Fixpoint split (s : string) (sep : ascii) : list string :=
  match s with
  | EmptyString => [EmptyString]
  | String c s' =>
      if Ascii.eqb c sep then EmptyString :: split s' sep
      else match split s' sep with
           | h :: t => String c h :: t
           | [] => [String c EmptyString]
           end
  end.

(** [sum(p(c) for c in s)]. *)
Fixpoint count_if (p : ascii → bool) (s : string) : Z :=
  match s with
  | EmptyString => 0
  | String c s' => (if p c then 1 else 0) + count_if p s'
  end%Z.

Fixpoint all_chars (p : ascii → bool) (s : string) : bool :=
  match s with
  | EmptyString => true
  | String c s' => p c && all_chars p s'
  end.

Fixpoint take (n : nat) (s : string) : string :=
  match n, s with
  | S k, String c s' => String c (take k s')
  | _, _ => EmptyString
  end.

Fixpoint drop (n : nat) (s : string) : string :=
  match n, s with
  | S k, String _ s' => drop k s'
  | _, _ => s
  end.

(** [s.find(c)] for a character: [None] stands for -1. *)
Fixpoint find (s : string) (c : ascii) : option nat :=
  match s with
  | EmptyString => None
  | String a s' => if Ascii.eqb a c then Some 0%nat else S <$> find s' c
  end.

(** [s.rfind(c)]. *)
Fixpoint rfind (s : string) (c : ascii) : option nat :=
  match s with
  | EmptyString => None
  | String a s' =>
      match rfind s' c with
      | Some i => Some (S i)
      | None => if Ascii.eqb a c then Some 0%nat else None
      end
  end.

(** [s.partition(c)]: [None] when [c] does not occur. *)
Definition partition (s : string) (c : ascii) : option (string * string) :=
  (λ i, (take i s, drop (S i) s)) <$> find s c.

Definition rpartition (s : string) (c : ascii) : option (string * string) :=
  (λ i, (take i s, drop (S i) s)) <$> rfind s c.

Definition has_char (c : ascii) (s : string) : bool :=
  match find s c with Some _ => true | None => false end.

(** ** Numbers *)

(** [min(a, b)]: the first argument unless the second is smaller. *)
Definition min (a b : Q) : Q := if Qle_bool a b then a else b.

(** [max(l)]: the first of the largest items; raises on an empty argument. *)
Fixpoint max_from (cur : Q) (l : list Q) : Q :=
  match l with
  | [] => cur
  | x :: l' => max_from (if Qle_bool x cur then cur else x) l'
  end.

Definition max (l : list Q) : result Q :=
  match l with
  | [] => Raise (ValueError "max() arg is an empty sequence")
  | x :: l' => Ok (max_from x l')
  end.

(** Nearest integer, ties to even. *)
Definition round_half_even (q : Q) : Z :=
  let f := Qfloor q in
  match Qcompare (q - inject_Z f) (1 # 2) with
  | Lt => f
  | Gt => (f + 1)%Z
  | Eq => if Z.even f then f else (f + 1)%Z
  end.

(** [round(q, ndigits)] as a decimal: the multiple of [10^-ndigits]
    nearest to [q], ties to even.  For the value [q] of a float this is
    the decimal that [round] selects and that the result prints as; the
    float returned is the one nearest to it, [Binary64.round]. *)
Definition round (q : Q) (ndigits : nat) : Q :=
  let scale := (10 ^ Z.of_nat ndigits)%Z in
  Qmake (round_half_even (q * inject_Z scale)) (Z.to_pos scale).

(** [l[i]]. *)
Definition index {A} (l : list A) (i : nat) : result A :=
  match l !! i with
  | Some a => Ok a
  | None => Raise (IndexError "index out of range")
  end.

End Py.

Export Py.

(* ===================================================================== *)
(** * Python [float]: binary64 arithmetic                                 *)
(* ===================================================================== *)

(** A float is the rational it denotes (infinities and NaN are not values
    of the model).  An operation on floats is the exact operation followed
    by [rnd], the rounding of IEEE 754 to the nearest binary64 number,
    ties to the even significand.  Overflow is not modelled: the
    operations are those of Python as long as no result reaches
    [2^1024]. *)
Module Binary64.

(** [2^e]. *)
Definition pow2 (e : Z) : Q := 2 ^ e.

(** The binary exponent of a positive number: the [e] with
    [2^e <= q < 2^(e+1)]. *)
Definition exponent (q : Q) : Z :=
  let e := (Z.log2 (Qnum q) - Z.log2 (Z.pos (Qden q)))%Z in
  if Qle_bool (pow2 e) q then e else (e - 1)%Z.

(** The spacing of the floats around [q]: 53 significant bits down to the
    exponent -1022, and the spacing [2^-1074] of the subnormal numbers
    below. *)
Definition ulp (q : Q) : Q :=
  pow2 (Z.max (exponent (Qabs q)) (-1022) - 52).

(** The float nearest to [q], ties to even. *)
Definition rnd (q : Q) : Q :=
  if Qeq_bool q 0 then 0%Q
  else Qred (inject_Z (round_half_even (q / ulp q)) * ulp q).

(** Whether [q] is (the value of) a finite float. *)
Definition is_float (q : Q) : bool :=
  Qeq_bool (rnd q) q && negb (Qle_bool (pow2 1024) (Qabs q)).

(** [x * y] on floats; an [int] operand below [2^53] is converted
    exactly. *)
Definition mul (x y : Q) : Q := rnd (x * y).

(** [round(x, ndigits)] on a float, as CPython computes it
    ([double_round] in [floatobject.c]): the exact value of [x] is rounded
    to the nearest decimal with [ndigits] digits after the point, ties to
    even, and the float nearest to this decimal is returned. *)
Definition round (x : Q) (ndigits : nat) : Q := rnd (Py.round x ndigits).

(** The value of a primitive float of Rocq, which is a binary64 number
    computed by the processor: the link between this module and the
    hardware arithmetic that Python uses. *)
Definition value_of (x : PrimFloat.float) : option Q :=
  match FloatOps.Prim2SF x with
  | SpecFloat.S754_zero _ => Some 0%Q
  | SpecFloat.S754_finite s m e =>
      Some ((if s then -1 else 1) * inject_Z (Z.pos m) * pow2 e)%Q
  | _ => None
  end.

(** [x] is finite and [q] is its value. *)
Definition denotes (x : PrimFloat.float) (q : Q) : bool :=
  match value_of x with
  | Some v => Qeq_bool q v
  | None => false
  end.

(** The quotient [n / d] of two primitive floats denotes the float
    nearest to the rational [n / d]. *)
Definition agree_on_quotient (n d : PrimFloat.float) : bool :=
  match value_of n, value_of d with
  | Some a, Some b => denotes (PrimFloat.div n d) (rnd (a / b))
  | _, _ => false
  end.

(** The product of two primitive floats denotes [mul] of their values. *)
Definition agree_on_product (x y : PrimFloat.float) : bool :=
  match value_of x, value_of y with
  | Some a, Some b => denotes (PrimFloat.mul x y) (mul a b)
  | _, _ => false
  end.

End Binary64.

(* ===================================================================== *)
(** * Regular expressions: the fragment [re.match] is used with           *)
(* ===================================================================== *)

Module Re.

(** [^], [$], [\d], a literal character, concatenation and [r{lo,hi}]. *)
Inductive regex : Type :=
| Bos
| Eos
| Digit
| Chr (c : ascii)
| Seq (r1 r2 : regex)
| Repeat (r : regex) (lo hi : nat).

(** A matching state: how many characters are consumed, and what is left. *)
Definition state : Type := nat * string.

Section Iterate.
Variable step : state → list state.

(** Between [lo] and [hi] rounds of [step], longest first (greedy). *)
Fixpoint iterate (lo hi : nat) (st : state) : list state :=
  match hi with
  | O => match lo with O => [st] | S _ => [] end
  | S hi' =>
      (step st ≫= iterate (Nat.pred lo) hi')
      ++ match lo with O => [st] | S _ => [] end
  end.
End Iterate.

(** All states a backtracking matcher can reach, in the order it tries
    them.  [$] (without MULTILINE) holds at the end of the string and just
    before a final newline. *)
Fixpoint matches (r : regex) (st : state) : list state :=
  match r with
  | Bos => match fst st with O => [st] | S _ => [] end
  | Eos =>
      match snd st with
      | EmptyString => [st]
      | String c EmptyString => if Ascii.eqb c "010" then [st] else []
      | _ => []
      end
  | Digit =>
      match snd st with
      | String c s' => if is_decimal c then [(S (fst st), s')] else []
      | EmptyString => []
      end
  | Chr c =>
      match snd st with
      | String a s' => if Ascii.eqb a c then [(S (fst st), s')] else []
      | EmptyString => []
      end
  | Seq r1 r2 => matches r1 st ≫= matches r2
  | Repeat r lo hi => iterate (matches r) lo hi st
  end.

(** Truth value of [re.match(r, s)]: a match object, or [None]. *)
Definition re_match (r : regex) (s : string) : bool :=
  match matches r (O, s) with
  | [] => false
  | _ :: _ => true
  end.

End Re.

(* ===================================================================== *)
(** * [urllib.parse]: a model of CPython's [urlparse]                     *)
(* ===================================================================== *)

(** The program calls [urlparse] but does not define it.  This module
    follows CPython 3.12's [urllib/parse.py] ([urlsplit], [_splitnetloc],
    [_check_bracketed_netloc], [_splitparams], [urlparse]) on Latin-1
    strings.  Two parts are left out or open:
    - [_checknetloc] only raises when NFKC normalisation of a non-ASCII
      authority produces one of [/?#@:]; no Latin-1 character does;
    - [ipaddress.ip_address], used to validate a bracketed host, is the
      parameter [ip_address]. *)

Module Urllib.

Record ParseResult : Type := {
  scheme : string;
  netloc : string;
  path : string;
  params : string;
  query : string;
  fragment : string
}.

Inductive ip_version : Type := IPv4 | IPv6.

(** [_WHATWG_C0_CONTROL_OR_SPACE]. *)
Definition c0_control_or_space (c : ascii) : bool := (ord c <=? 32)%N.

(** [_UNSAFE_URL_BYTES_TO_REMOVE = ['\t', '\r', '\n']]. *)
Definition unsafe_url_byte (c : ascii) : bool :=
  (ord c =? 9)%N || (ord c =? 13)%N || (ord c =? 10)%N.

(** [scheme_chars]: ASCII letters, digits and [+-.]. *)
Definition scheme_char (c : ascii) : bool :=
  is_ascii_alpha c || is_decimal c
  || Ascii.eqb c "+" || Ascii.eqb c "-" || Ascii.eqb c ".".

Definition uses_params : list string :=
  [""; "ftp"; "hdl"; "prospero"; "http"; "imap"; "https"; "shttp"; "rtsp";
   "rtspu"; "sip"; "sips"; "mms"; "sftp"; "tel"].

Fixpoint lstrip (p : ascii → bool) (s : string) : string :=
  match s with
  | String c s' => if p c then lstrip p s' else s
  | EmptyString => EmptyString
  end.

Fixpoint remove (p : ascii → bool) (s : string) : string :=
  match s with
  | String c s' => if p c then remove p s' else String c (remove p s')
  | EmptyString => EmptyString
  end.

(** The scheme part of [urlsplit]: [(scheme, rest)]. *)
Definition split_scheme (url : string) : string * string :=
  match find url ":", url with
  | Some (S i'), String c0 _ =>
      let i := S i' in
      if is_ascii_alpha c0 && all_chars scheme_char (take i url)
      then (lower (take i url), drop (S i) url)
      else (EmptyString, url)
  | _, _ => (EmptyString, url)
  end.

Definition netloc_delim (c : ascii) : bool :=
  Ascii.eqb c "/" || Ascii.eqb c "?" || Ascii.eqb c "#".

(** Length of the longest prefix without a character satisfying [p]. *)
Fixpoint span_len (p : ascii → bool) (s : string) : nat :=
  match s with
  | String c s' => if p c then O else S (span_len p s')
  | EmptyString => O
  end.

(** [_splitnetloc(url, 2)]. *)
Definition _splitnetloc (url : string) : string * string :=
  let after := drop 2 url in
  let n := span_len netloc_delim after in
  (take n after, drop n after).

(** [re.match(r"\Av[a-fA-F0-9]+\..+\Z", hostname, flags=re.DOTALL)]. *)
Definition is_hex (c : ascii) : bool :=
  is_decimal c || in_range 65 70 c || in_range 97 102 c.

Definition ipvfuture_ok (hostname : string) : bool :=
  match hostname with
  | String "v" rest =>
      let n := span_len (λ c, negb (is_hex c)) rest in
      match drop n rest with
      | String "." (String _ _) => (0 <? n)%nat
      | _ => false
      end
  | _ => false
  end.

Section Bracketed.
Variable ip_address : string → option ip_version.

Definition _check_bracketed_host (hostname : string) : result unit :=
  if startswith hostname "v" then
    if ipvfuture_ok hostname then Ok ()
    else Raise (ValueError "IPvFuture address is invalid")
  else
    match ip_address hostname with
    | None => Raise (ValueError "does not appear to be an IPv4 or IPv6 address")
    | Some IPv4 => Raise (ValueError "An IPv4 address cannot be in brackets")
    | Some IPv6 => Ok ()
    end.

Definition _check_bracketed_netloc (netloc : string) : result unit :=
  let hostname_and_port :=
    match rpartition netloc "@" with Some (_, r) => r | None => netloc end in
  match partition hostname_and_port "[" with
  | Some (before_bracket, bracketed) =>
      match before_bracket with
      | String _ _ => Raise (ValueError "Invalid IPv6 URL")
      | EmptyString =>
          let '(hostname, port) :=
            match partition bracketed "]" with
            | Some (h, p) => (h, p)
            | None => (bracketed, EmptyString)
            end in
          match port with
          | String c _ =>
              if Ascii.eqb c ":" then _check_bracketed_host hostname
              else Raise (ValueError "Invalid IPv6 URL")
          | EmptyString => _check_bracketed_host hostname
          end
      end
  | None =>
      let hostname :=
        match partition hostname_and_port ":" with
        | Some (h, _) => h
        | None => hostname_and_port
        end in
      _check_bracketed_host hostname
  end.

(** [urlsplit(url)]: [(scheme, netloc, path, query, fragment)]. *)
Definition urlsplit (url : string)
  : result (string * string * string * string * string) :=
  let url := lstrip c0_control_or_space url in
  let url := remove unsafe_url_byte url in
  let '(scheme, url) := split_scheme url in
  '(netloc, url) ←
    (if String.eqb (take 2 url) "//" then
       let '(netloc, url) := _splitnetloc url in
       let open := has_char "[" netloc in
       let close := has_char "]" netloc in
       if (open && negb close) || (close && negb open)
       then Raise (ValueError "Invalid IPv6 URL")
       else if open && close
       then _check_bracketed_netloc netloc ≫= λ _, Ok (netloc, url)
       else Ok (netloc, url)
     else Ok (EmptyString, url));
  let '(url, fragment) :=
    match partition url "#" with
    | Some (u, f) => (u, f)
    | None => (url, EmptyString)
    end in
  let '(url, query) :=
    match partition url "?" with
    | Some (u, q) => (u, q)
    | None => (url, EmptyString)
    end in
  Ok (scheme, netloc, url, query, fragment).

(** [_splitparams(url)], called when [';' in url]. *)
Definition _splitparams (url : string) : string * string :=
  match rfind url "/" with
  | Some j =>
      match find (drop j url) ";" with
      | Some k => (take (j + k) url, drop (S (j + k)) url)
      | None => (url, EmptyString)
      end
  | None =>
      match find url ";" with
      | Some i => (take i url, drop (S i) url)
      | None => (url, EmptyString)
      end
  end.

Definition urlparse (url : string) : result ParseResult :=
  '(scheme, netloc, url, query, fragment) ← urlsplit url;
  let '(url, params) :=
    if bool_decide (scheme ∈ uses_params) && has_char ";" url
    then _splitparams url
    else (url, EmptyString) in
  Ok {| scheme := scheme; netloc := netloc; path := url; params := params;
        query := query; fragment := fragment |}.

End Bracketed.
End Urllib.

(* ===================================================================== *)
(** * [tldextract] and the library interface                              *)
(* ===================================================================== *)

(** The fields of [tldextract.ExtractResult] the program reads. *)
Record ExtractResult : Type := {
  subdomain : string;
  domain : string;
  suffix : string
}.

(** The library functions the program is linked with. *)
Class Libraries : Type := {
  urlparse : string → result Urllib.ParseResult;
  tldextract_extract : string → result ExtractResult;
  math_log2 : Q → Q
}.

(* ===================================================================== *)
(** * [feature_extractor.py]                                              *)
(* ===================================================================== *)

(** A feature value: a Python [int] or a Python [float]. *)
Inductive value : Type :=
| VInt (n : Z)
| VFloat (q : Q).

(** Truth value of a number: non-zero. *)
Definition truthy (v : value) : bool :=
  match v with
  | VInt n => negb (n =? 0)%Z
  | VFloat q => negb (Qeq_bool q 0)
  end.

(** [v > n] for an integer literal [n]. *)
Definition value_gt (v : value) (n : Z) : bool :=
  match v with
  | VInt m => (n <? m)%Z
  | VFloat q => negb (Qle_bool q (inject_Z n))
  end.

(** [1 if b else 0]. *)
Definition flag (b : bool) : value := VInt (if b then 1 else 0).

(** [d[k]]. *)
Definition getitem (d : gmap string value) (k : string) : result value :=
  match d !! k with
  | Some v => Ok v
  | None => Raise (KeyError k)
  end.

Module URLFeatureExtractor.

(** [collections.Counter]: counts kept in order of first occurrence. *)
Fixpoint counter_incr (c : ascii) (freq : list (ascii * Z)) : list (ascii * Z) :=
  match freq with
  | [] => [(c, 1%Z)]
  | (a, n) :: rest =>
      if Ascii.eqb a c then (a, (n + 1)%Z) :: rest
      else (a, n) :: counter_incr c rest
  end.

Fixpoint Counter_from (freq : list (ascii * Z)) (s : string) : list (ascii * Z) :=
  match s with
  | EmptyString => freq
  | String c s' => Counter_from (counter_incr c freq) s'
  end.

Definition Counter (s : string) : list (ascii * Z) := Counter_from [] s.

(** [r'^\d{1,3}\.\d{1,3}\.\d{1,3}\.\d{1,3}$'] *)
Definition ip_pattern : Re.regex :=
  let octet := Re.Repeat Re.Digit 1 3 in
  let dot := Re.Chr "." in
  Re.Seq Re.Bos
    (Re.Seq octet (Re.Seq dot
      (Re.Seq octet (Re.Seq dot
        (Re.Seq octet (Re.Seq dot
          (Re.Seq octet Re.Eos))))))).

Definition suspicious_tlds : list string :=
  [".tk"; ".ml"; ".ga"; ".cf"; ".gq"; ".xyz"; ".top"].

Definition phishing_keywords : list string :=
  ["login"; "signin"; "account"; "update"; "confirm"; "verify";
   "secure"; "ebay"; "paypal"; "amazon"; "bank"; "apple"].

(** The [except] branch of [extract_features]. *)
Definition default_features (features : gmap string value) : gmap string value :=
  let features := <["subdomain_length" := VInt 0]> features in
  let features := <["has_subdomain" := VInt 0]> features in
  let features := <["num_subdomains" := VInt 0]> features in
  let features := <["path_length" := VInt 0]> features in
  let features := <["num_path_tokens" := VInt 0]> features in
  let features := <["has_query_params" := VInt 0]> features in
  let features := <["num_query_params" := VInt 0]> features in
  let features := <["is_ip_address" := VInt 0]> features in
  let features := <["has_port" := VInt 0]> features in
  let features := <["tld_length" := VInt 0]> features in
  let features := <["has_suspicious_tld" := VInt 0]> features in
  features.

(** [get_feature_names()]. *)
Definition get_feature_names : list string :=
  ["url_length"; "domain_length"; "has_https"; "has_http";
   "num_dots"; "num_hyphens"; "num_underscores"; "num_slashes";
   "num_question_marks"; "num_equal_signs"; "num_at_symbols";
   "num_ampersands"; "num_percent_signs"; "has_at_symbol";
   "has_double_slash_redirect"; "num_digits"; "digit_ratio";
   "subdomain_length"; "has_subdomain"; "num_subdomains";
   "path_length"; "num_path_tokens"; "has_query_params";
   "num_query_params"; "is_ip_address"; "has_port";
   "tld_length"; "has_suspicious_tld"; "has_phishing_keyword";
   "url_entropy"].

Section WithLibraries.
Context {L : Libraries}.

(** [calculate_entropy(string)]. *)
Definition calculate_entropy (s : string) : Q :=
  match s with
  | EmptyString => 0%Q
  | _ =>
      let freq := Counter s in
      let length := len s in
      fold_left
        (λ (entropy : Q) '(_, count),
           let probability := (inject_Z count / inject_Z length)%Q in
           if negb (Qle_bool probability 0)
           then (entropy - probability * math_log2 probability)%Q
           else entropy)
        freq 0%Q
  end.

(** The host the IP pattern is matched against:
    [parsed.netloc.split(':')[0]]. *)
Definition host_of (netloc : string) : string :=
  match split netloc ":" with
  | h :: _ => h
  | [] => EmptyString
  end.

(** The body of the [try] block of [extract_features].  Only its first two
    statements can raise, before any key is written. *)
Definition structural_features (url : string) (features : gmap string value)
  : result (gmap string value) :=
  parsed ← urlparse url;
  extracted ← tldextract_extract url;
  let sub := subdomain extracted in
  let features := <["subdomain_length" := VInt (len sub)]> features in
  let features := <["has_subdomain" := flag (negb (String.eqb sub ""))]> features in
  let features :=
    <["num_subdomains" :=
        VInt (if String.eqb sub "" then 0
              else Z.of_nat (length (split sub ".")))]> features in
  let path := Urllib.path parsed in
  let features := <["path_length" := VInt (len path)]> features in
  let features :=
    <["num_path_tokens" := VInt (Z.of_nat (length (split path "/")))]> features in
  let query := Urllib.query parsed in
  let features :=
    <["has_query_params" := flag (negb (String.eqb query ""))]> features in
  let features :=
    <["num_query_params" :=
        VInt (if String.eqb query "" then 0
              else Z.of_nat (length (split query "&")))]> features in
  let is_ip_address :=
    Re.re_match ip_pattern (host_of (Urllib.netloc parsed)) in
  let features := <["is_ip_address" := flag is_ip_address]> features in
  let features :=
    <["has_port" :=
        flag (contains ":" (Urllib.netloc parsed) && negb is_ip_address)]>
      features in
  let features := <["tld_length" := VInt (len (suffix extracted))]> features in
  let features :=
    <["has_suspicious_tld" :=
        flag (existsb (λ tld, endswith url tld) suspicious_tlds)]> features in
  Ok features.

(** [extract_features(url)]. *)
Definition extract_features (url : string) : result (gmap string value) :=
  let features : gmap string value := ∅ in
  let features := <["url_length" := VInt (len url)]> features in
  parsed ← urlparse url;
  let features :=
    <["domain_length" := VInt (len (Urllib.netloc parsed))]> features in
  let features := <["has_https" := flag (startswith url "https://")]> features in
  let features := <["has_http" := flag (startswith url "http://")]> features in
  let features := <["num_dots" := VInt (count url ".")]> features in
  let features := <["num_hyphens" := VInt (count url "-")]> features in
  let features := <["num_underscores" := VInt (count url "_")]> features in
  let features := <["num_slashes" := VInt (count url "/")]> features in
  let features := <["num_question_marks" := VInt (count url "?")]> features in
  let features := <["num_equal_signs" := VInt (count url "=")]> features in
  let features := <["num_at_symbols" := VInt (count url "@")]> features in
  let features := <["num_ampersands" := VInt (count url "&")]> features in
  let features := <["num_percent_signs" := VInt (count url "%")]> features in
  let features := <["has_at_symbol" := flag (contains "@" url)]> features in
  let features :=
    <["has_double_slash_redirect" := flag (1 <? count url "//")%Z]> features in
  let num_digits := count_if isdigit url in
  let features := <["num_digits" := VInt num_digits]> features in
  let features :=
    <["digit_ratio" :=
        if (0 <? len url)%Z
        then VFloat (inject_Z num_digits / inject_Z (len url))%Q
        else VInt 0]> features in
  let features :=
    match structural_features url features with
    | Ok features => features
    | Raise _ => default_features features
    end in
  let features :=
    <["has_phishing_keyword" :=
        flag (existsb (λ keyword, contains keyword (lower url))
                phishing_keywords)]> features in
  let features := <["url_entropy" := VFloat (calculate_entropy url)]> features in
  Ok features.

End WithLibraries.
End URLFeatureExtractor.

(* ===================================================================== *)
(** * [model_loader.py]                                                   *)
(* ===================================================================== *)

Module ModelLoader.

(** What the service can observe of an unpickled model object: its
    [predict] and [predict_proba] methods on a feature matrix (either may
    raise), and its truth value. *)
Record Estimator : Type := {
  estimator_predict : list (list value) → result (list Z);
  estimator_predict_proba : list (list value) → result (list (list Q));
  estimator_bool : result bool
}.

(** A Python object reference: [None], or an object with its identity. *)
Inductive pyobj : Type :=
| PyNone
| PyObject (id : nat) (est : Estimator).

Definition is_None (o : pyobj) : bool :=
  match o with PyNone => true | PyObject _ _ => false end.

(** Accesses to the model storage. *)
Inductive io_event : Type :=
| PathExists (p : string)
| OpenRead (p : string).

(** The shared state.  A stored file is the outcome of opening it and
    running [pickle.load]: an exception, [None], or a model. *)
Record World : Type := {
  _instance : option nat;                     (* ModelLoader._instance *)
  heap : gmap nat (gmap string pyobj);        (* instance dictionaries *)
  next_id : nat;                              (* next fresh identity *)
  base_dir : string;                          (* Path(__file__).parent.parent *)
  storage : gmap string (result (option Estimator));
  io_log : list io_event
}.

Definition log (ev : io_event) (w : World) : World :=
  {| _instance := _instance w; heap := heap w; next_id := next_id w;
     base_dir := base_dir w; storage := storage w;
     io_log := io_log w ++ [ev] |}.

(** [self._model]: the instance attribute when set, else the class
    attribute [_model = None] (never assigned through the class). *)
Definition getattr__model (w : World) (self : nat) : pyobj :=
  match heap w !! self ≫= (λ d, d !! "_model") with
  | Some v => v
  | None => PyNone
  end.

(** [self._model = v]. *)
Definition setattr__model (w : World) (self : nat) (v : pyobj) : World :=
  {| _instance := _instance w;
     heap := <[self := <["_model" := v]> (default ∅ (heap w !! self))]> (heap w);
     next_id := next_id w; base_dir := base_dir w; storage := storage w;
     io_log := io_log w |}.

(** [ModelLoader()], that is [__new__] ([__init__] is [object]'s). *)
Definition __new__ (w : World) : nat * World :=
  match _instance w with
  | Some self => (self, w)
  | None =>
      let self := next_id w in
      (self,
       {| _instance := Some self; heap := <[self := ∅]> (heap w);
          next_id := S self; base_dir := base_dir w; storage := storage w;
          io_log := io_log w |})
  end.

(** [pickle.load] builds a new object. *)
Definition unpickle (data : option Estimator) (w : World) : pyobj * World :=
  match data with
  | None => (PyNone, w)
  | Some est =>
      (PyObject (next_id w) est,
       {| _instance := _instance w; heap := heap w; next_id := S (next_id w);
          base_dir := base_dir w; storage := storage w; io_log := io_log w |})
  end.

Definition default_model_path (w : World) : string :=
  base_dir w +:+ "/models/phishing_model.pkl".

(** [self.load_model(model_path)]. *)
Definition load_model (self : nat) (model_path : option string) (w : World)
  : result pyobj * World :=
  match getattr__model w self with
  | PyObject _ _ as cached => (Ok cached, w)
  | PyNone =>
      let model_path := default (default_model_path w) model_path in
      let w := log (PathExists model_path) w in
      match storage w !! model_path with
      | None =>
          (Raise (FileNotFoundError ("Model file not found: " +:+ model_path)), w)
      | Some content =>
          let w := log (OpenRead model_path) w in
          match content with
          | Raise e => (Raise e, w)
          | Ok data =>
              let '(obj, w) := unpickle data w in
              (Ok obj, setattr__model w self obj)
          end
      end
  end.

(** [self.get_model()]. *)
Definition get_model (self : nat) (w : World) : result pyobj :=
  match getattr__model w self with
  | PyNone => Raise (RuntimeError "Model not loaded. Call load_model() first.")
  | PyObject _ _ as model => Ok model
  end.

(** [model.predict(features)] and [model.predict_proba(features)] on an
    object reference. *)
Definition call_predict (model : pyobj) (features : list (list value))
  : result (list Z) :=
  match model with
  | PyObject _ est => estimator_predict est features
  | PyNone => Raise (AttributeError "'NoneType' object has no attribute 'predict'")
  end.

Definition call_predict_proba (model : pyobj) (features : list (list value))
  : result (list (list Q)) :=
  match model with
  | PyObject _ est => estimator_predict_proba est features
  | PyNone =>
      Raise (AttributeError "'NoneType' object has no attribute 'predict_proba'")
  end.

(** [self.predict(features)]. *)
Definition predict (self : nat) (features : list (list value)) (w : World)
  : result (list Z) :=
  model ← get_model self w;
  call_predict model features.

(** [self.predict_proba(features)]. *)
Definition predict_proba (self : nat) (features : list (list value)) (w : World)
  : result (list (list Q)) :=
  model ← get_model self w;
  call_predict_proba model features.

End ModelLoader.

(* ===================================================================== *)
(** * [main.py]                                                           *)
(* ===================================================================== *)

Module Main.
Import ModelLoader.

(** [PredictionResponse]. *)
Record PredictionResponse : Type := {
  url : string;
  prediction : string;
  confidence : Q;
  risk_score : Q;
  features : option (gmap string value);
  message : string
}.

(** What a handler gives back to the framework: a body, or the
    [HTTPException] it raised. *)
Inductive http (A : Type) : Type :=
| Respond (body : A)
| HTTPException (status_code : Z) (detail : string).
Arguments Respond {A} body.
Arguments HTTPException {A} status_code detail.

(** The decision part of the body of [scan_url_direct]; the timestamp, the
    request id and the response time are left to the transport. *)
Inductive scan_response : Type :=
| ScanError (error : string) (url : string)
| ScanResult (url : string) (prediction : string) (confidence : Q)
             (message : string) (fromCache : bool).

(** [URLRequest.validate_url]. *)
Definition validate_url (v : string) : result string :=
  if startswith v "http://" || startswith v "https://" then Ok v
  else Raise (ValueError "URL must start with http:// or https://").

(** Module initialisation: [model_loader = ModelLoader()]. *)
Definition module_init (w : World) : nat * World := __new__ w.

(** [startup_event()]: every exception of [load_model] is handled. *)
Definition startup_event (model_loader : nat) (w : World) : World :=
  snd (load_model model_loader None w).

(** [health_check()]: the [model_loaded] field. *)
Definition health_check (model_loader : nat) (w : World) : bool :=
  match get_model model_loader w with
  | Ok _ => true
  | Raise _ => false
  end.

(** The tiered message of the model path. *)
Definition risk_message (prediction_label : string) (risk_score : Q) : string :=
  if String.eqb prediction_label "Phishing" then
    if Qle_bool 90 risk_score then
      "HIGH RISK: This URL is highly likely to be a phishing attempt. Do not proceed."
    else if Qle_bool 70 risk_score then
      "MEDIUM RISK: This URL shows signs of phishing. Proceed with caution."
    else
      "LOW RISK: This URL may be suspicious. Verify before proceeding."
  else "This URL appears to be legitimate.".

(** [probabilities[1] if len(probabilities) > 1 else probabilities[0]]. *)
Definition phishing_entry (probabilities : list Q) : result Q :=
  if (1 <? length probabilities)%nat then index probabilities 1
  else index probabilities 0.

(** The inner [try] block of [predict_url], after [get_model].  The
    probabilities are floats (the entries of a float64 array, or Python
    floats); [float(...)] leaves their value as it is. *)
Definition model_decision (url : string) (features : gmap string value)
    (model : pyobj) (feature_vector : list (list value))
  : result PredictionResponse :=
  predictions ← call_predict model feature_vector;
  prediction ← index predictions 0;
  all_probabilities ← call_predict_proba model feature_vector;
  probabilities ← index all_probabilities 0;
  phishing_probability ← phishing_entry probabilities;
  confidence ← max probabilities;
  let risk_score := Binary64.mul phishing_probability 100 in
  let prediction_label := if (prediction =? 1)%Z then "Phishing" else "Benign" in
  let message := risk_message prediction_label risk_score in
  Ok {| url := url; prediction := prediction_label;
        confidence := Binary64.round confidence 4;
        risk_score := Binary64.round risk_score 2;
        features := Some features; message := message |}.

(** One step of the indicator count: [if v: risk_indicators += 1]. *)
Definition bump (cond : bool) (risk_indicators : Z) : Z :=
  if cond then (risk_indicators + 1)%Z else risk_indicators.

(** The six signals of the [except RuntimeError] block, summed. *)
Definition risk_indicators_of (features : gmap string value) : result Z :=
  let risk_indicators := 0%Z in
  v ← getitem features "has_at_symbol";
  let risk_indicators := bump (truthy v) risk_indicators in
  v ← getitem features "is_ip_address";
  let risk_indicators := bump (truthy v) risk_indicators in
  v ← getitem features "has_suspicious_tld";
  let risk_indicators := bump (truthy v) risk_indicators in
  v ← getitem features "has_phishing_keyword";
  let risk_indicators := bump (truthy v) risk_indicators in
  v ← getitem features "url_length";
  let risk_indicators := bump (value_gt v 75) risk_indicators in
  v ← getitem features "num_dots";
  let risk_indicators := bump (value_gt v 4) risk_indicators in
  Ok risk_indicators.

(** [min((risk_indicators / 6) * 100, 100)]. *)
Definition heuristic_risk_score (risk_indicators : Z) : Q :=
  min ((inject_Z risk_indicators / 6) * 100)%Q 100.

(** The [except RuntimeError] block of [predict_url]. *)
Definition heuristic_decision (url : string) (features : gmap string value)
  : result PredictionResponse :=
  risk_indicators ← risk_indicators_of features;
  let risk_score := heuristic_risk_score risk_indicators in
  let prediction_label :=
    if (3 <=? risk_indicators)%Z then "Phishing" else "Benign" in
  let confidence := if (3 <=? risk_indicators)%Z then 0.75%Q else 0.80%Q in
  let message := "Demo mode prediction (model not trained yet)" in
  Ok {| url := url; prediction := prediction_label; confidence := confidence;
        risk_score := risk_score; features := Some features;
        message := message |}.

Section WithLibraries.
Context {L : Libraries}.

(** [np.array([[features[name] for name in feature_names]])]. *)
Definition feature_matrix (features : gmap string value)
  : result (list (list value)) :=
  row ← mapM (getitem features) URLFeatureExtractor.get_feature_names;
  Ok [row].

(** The outer [try] block of [predict_url]. *)
Definition predict_url_body (model_loader : nat) (w : World) (url : string)
  : result PredictionResponse :=
  features ← URLFeatureExtractor.extract_features url;
  feature_vector ← feature_matrix features;
  match (model ← get_model model_loader w;
         model_decision url features model feature_vector) with
  | Ok response => Ok response
  | Raise e =>
      if is_RuntimeError e then heuristic_decision url features
      else Raise e
  end.

(** [predict_url(request)] for [request.url = url]: [ValueError] becomes
    status 400, any other exception status 500. *)
Definition predict_url (model_loader : nat) (w : World) (url : string)
  : http PredictionResponse :=
  match predict_url_body model_loader w url with
  | Ok response => Respond response
  | Raise e =>
      if is_ValueError e then HTTPException 400 (str_of_exc e)
      else HTTPException 500 ("Internal server error: " +:+ str_of_exc e)
  end.

(** The rule list of the [model is None] branch of [scan_url_direct]. *)
Definition demo_rules (url : string) : list bool :=
  [ contains "secure-" (lower url) && (contains ".tk" url || contains ".ml" url);
    contains "verify" (lower url) && (50 <? len url)%Z;
    contains "login.php" (lower url);
    contains "confirm" (lower url) && (3 <? count url "-")%Z;
    (3 <? count url ".")%Z;
    existsb (λ char, contains char url) (concat (replicate 3 ["0"; "1"])) ].

(** The inner [try] block of [scan_url_direct]:
    [(confidence, prediction_label)]. *)
Definition scan_decision (model_loader : nat) (w : World) (url : string)
    (features : gmap string value) : result (Q * string) :=
  model ← get_model model_loader w;
  if is_None model then
    let is_phishing := existsb id (demo_rules url) in
    Ok (if is_phishing then 0.85%Q else 0.92%Q,
        if is_phishing then "Phishing" else "Benign")
  else
    feature_vector ← feature_matrix features;
    predictions ← call_predict model feature_vector;
    prediction ← index predictions 0;
    all_probabilities ← call_predict_proba model feature_vector;
    probabilities ← index all_probabilities 0;
    phishing_probability ← phishing_entry probabilities;
    confidence ← max probabilities;
    Ok (confidence, if (prediction =? 1)%Z then "Phishing" else "Benign").

(** The [except Exception as model_error] block of [scan_url_direct]. *)
Definition scan_fallback (url : string) : Q * string :=
  let is_phishing :=
    contains "phishing" (lower url) || contains "secure-" (lower url) in
  (0.75%Q, if is_phishing then "Phishing" else "Benign").

(** [scan_url_direct(url)]. *)
Definition scan_url_direct (model_loader : nat) (w : World) (url : string)
  : scan_response :=
  if negb (startswith url "http://" || startswith url "https://") then
    ScanError "URL must start with http:// or https://" url
  else
    match URLFeatureExtractor.extract_features url with
    | Raise e => ScanError ("Analysis failed: " +:+ str_of_exc e) url
    | Ok features =>
        let '(confidence, prediction_label) :=
          match scan_decision model_loader w url features with
          | Ok decision => decision
          | Raise _ => scan_fallback url
          end in
        let message :=
          if String.eqb prediction_label "Phishing" then
            "HIGH RISK: This URL is highly likely to be a phishing attempt. Do not proceed."
          else "This URL appears to be legitimate." in
        ScanResult url prediction_label (round confidence 4) message false
    end.

End WithLibraries.

(** [health_check_direct()]: the [model_loaded] flag, and the world after
    the call [ModelLoader()]. *)
Definition health_check_direct (w : World) : bool * World :=
  let '(model_loader_instance, w) := __new__ w in
  (match get_model model_loader_instance w with
   | Ok model => negb (is_None model)
   | Raise _ => false
   end, w).

(** [get_stats_direct()]: the [model] field. *)
Definition get_stats_direct (w : World) : string * World :=
  let '(model_loader_instance, w) := __new__ w in
  (match get_model model_loader_instance w with
   | Ok (PyObject _ est) =>
       match estimator_bool est with
       | Ok true => "loaded"
       | Ok false => "demo_mode"
       | Raise _ => "error"
       end
   | Ok PyNone => "demo_mode"
   | Raise _ => "error"
   end, w).

End Main.

(* ===================================================================== *)
(** * Concrete libraries, models and worlds                               *)
(* ===================================================================== *)

Module Scenario.
Import ModelLoader Main.

(** The program linked with CPython's [urlparse]; the other library
    functions stay arguments. *)
Definition cpython (ip_address : string → option Urllib.ip_version)
    (extract : string → result ExtractResult) (log2 : Q → Q) : Libraries :=
  {| urlparse := Urllib.urlparse ip_address;
     tldextract_extract := extract;
     math_log2 := log2 |}.

(** Stand-ins for the remaining library functions, used to run examples:
    no bracketed host is accepted, the whole URL is reported as the domain
    (no subdomain, no suffix), and [log2] is constantly 0.  No statement
    below depends on these choices unless it names them. *)
Definition no_ip_address : string → option Urllib.ip_version := λ _, None.

Definition extract_bare (url : string) : result ExtractResult :=
  Ok {| subdomain := ""; domain := url; suffix := "" |}.

Definition log2_zero : Q → Q := λ _, 0%Q.

Definition reference : Libraries := cpython no_ip_address extract_bare log2_zero.

(** A process that has just started: nothing constructed, nothing read. *)
Definition fresh_world (files : gmap string (result (option Estimator))) : World :=
  {| _instance := None; heap := ∅; next_id := 0; base_dir := "/app";
     storage := files; io_log := [] |}.

(** Import of [main.py] followed by the startup event. *)
Definition boot (files : gmap string (result (option Estimator))) : nat * World :=
  let '(model_loader, w) := module_init (fresh_world files) in
  (model_loader, startup_event model_loader w).

Definition model_file : string := "/app/models/phishing_model.pkl".

Definition trained (est : Estimator) : gmap string (result (option Estimator)) :=
  {[ model_file := Ok (Some est) ]}.

(** The stub classifier of the spec: class 1 with probabilities
    [[0.1, 0.9]], the floats so written. *)
Definition stub_classifier : Estimator :=
  {| estimator_predict := λ _, Ok [1%Z];
     estimator_predict_proba :=
       λ _, Ok [[Binary64.rnd 0.1; Binary64.rnd 0.9]];
     estimator_bool := Ok true |}.

(** A classifier whose probabilities are written with five decimals:
    [[0.33333, 0.66667]]. *)
Definition fine_classifier : Estimator :=
  {| estimator_predict := λ _, Ok [1%Z];
     estimator_predict_proba :=
       λ _, Ok [[Binary64.rnd 0.33333; Binary64.rnd 0.66667]];
     estimator_bool := Ok true |}.

(** A classifier trained on 29 features: it rejects rows of any other
    width the way scikit-learn and XGBoost do, with a [ValueError]. *)
Definition narrow_classifier : Estimator :=
  let check (X : list (list value)) :=
    forallb (λ row, (length row =? 29)%nat) X in
  {| estimator_predict := λ X,
       if check X then Ok ((λ _, 0%Z) <$> X)
       else Raise (ValueError "Feature shape mismatch, expected: 29, got 30");
     estimator_predict_proba := λ X,
       if check X then Ok ((λ _, [1%Q; 0%Q]) <$> X)
       else Raise (ValueError "Feature shape mismatch, expected: 29, got 30");
     estimator_bool := Ok true |}.

End Scenario.

(* ===================================================================== *)
(** * Vocabulary of the specification                                     *)
(* ===================================================================== *)

(** Definitions in this module restate notions in the words of the
    specification; the theorems compare them with the code above. *)
Module Spec.

(** A run of one to three decimal digits. *)
Definition digit_run (x : string) : Prop :=
  (1 ≤ String.length x ≤ 3)%nat ∧ all_chars is_decimal x = true.

(** Four dot-separated runs of one to three decimal digits. *)
Definition dotted_quad (s : string) : Prop :=
  ∃ a b c d,
    s = a +:+ "." +:+ b +:+ "." +:+ c +:+ "." +:+ d
    ∧ digit_run a ∧ digit_run b ∧ digit_run c ∧ digit_run d.

(** The host of an authority, in the sense of the glossary where an
    authority is host[:port]: the text before its first colon, all of it
    when it has no colon. *)
Definition host_of_authority (netloc host : string) : Prop :=
  all_chars (λ c, negb (Ascii.eqb c ":")) host = true
  ∧ (netloc = host ∨ ∃ port, netloc = host +:+ String ":" port).

(** The six binary signals of the heuristic policy, each worth at most 1:
    has-at-symbol, is-IP-literal, has-suspicious-suffix,
    has-phishing-keyword, total length > 75, dot count > 4. *)
Definition signals (features : gmap string value) : list bool :=
  [ from_option truthy false (features !! "has_at_symbol");
    from_option truthy false (features !! "is_ip_address");
    from_option truthy false (features !! "has_suspicious_tld");
    from_option truthy false (features !! "has_phishing_keyword");
    from_option (λ v, value_gt v 75) false (features !! "url_length");
    from_option (λ v, value_gt v 4) false (features !! "num_dots") ].

(** The indicator count: how many signals hold. *)
Definition indicator_count (features : gmap string value) : Z :=
  Z.of_nat (length (filter (λ b, b = true) (signals features))).

(** The prediction call fails with [e]: [predict] raises it, or [predict]
    returns a label for the row and [predict_proba] raises it. *)
Definition prediction_call_fails (model : ModelLoader.pyobj)
    (feature_vector : list (list value)) (e : exc) : Prop :=
  ModelLoader.call_predict model feature_vector = Raise e
  ∨ ∃ label labels,
      ModelLoader.call_predict model feature_vector = Ok (label :: labels)
      ∧ ModelLoader.call_predict_proba model feature_vector = Raise e.

(** The seven scores [k/6 * 100], [k = 0..6]. *)
Definition heuristic_scores : list Q :=
  [0; 50 # 3; 100 # 3; 50; 200 # 3; 250 # 3; 100]%Q.

(** The largest entry of a non-empty vector. *)
Definition is_maximum (m : Q) (l : list Q) : Prop :=
  m ∈ l ∧ ∀ x, x ∈ l → (x <= m)%Q.

(** A probability as a classifier returns it: a float between 0 and 1. *)
Definition probability (q : Q) : bool :=
  Binary64.is_float q && Qle_bool 0 q && Qle_bool q 1.

End Spec.

(** The services the examples run: import, then startup, over a storage
    without a model file and over storages holding one classifier. *)
(** What [urlparse] returns for [http://] followed by an authority and a
    path without parameters, query or fragment. *)
Definition parsed_http (netloc path : string) : Urllib.ParseResult :=
  {| Urllib.scheme := "http"; Urllib.netloc := netloc; Urllib.path := path;
     Urllib.params := ""; Urllib.query := ""; Urllib.fragment := "" |}.

Module Service.
Import Scenario.

(** After the import of [main.py], before the startup event. *)
Definition imported : nat * ModelLoader.World :=
  Main.module_init (fresh_world (trained stub_classifier)).

Definition demo : nat * ModelLoader.World := boot ∅.
Definition stub : nat * ModelLoader.World := boot (trained stub_classifier).
Definition fine : nat * ModelLoader.World := boot (trained fine_classifier).
Definition narrow : nat * ModelLoader.World := boot (trained narrow_classifier).

End Service.

(* ===================================================================== *)
(** * [main.py]: the batch endpoint; [train_model.py]: the feature rows   *)
(* ===================================================================== *)

Module Endpoints.
Import ModelLoader Main.



Section WithLibraries.
Context {L : Libraries}.



End WithLibraries.
End Endpoints.

Module Trainer.
Section WithLibraries.
Context {L : Libraries}.

(** One round of the loop of [extract_features_from_dataset] on a row
    [(url, label)]: the feature values in the order of
    [get_feature_names], or nothing when anything raised. *)
Definition feature_values (url : string) : result (list value) :=
  features ← URLFeatureExtractor.extract_features url;
  mapM (getitem features) URLFeatureExtractor.get_feature_names.

Definition dataset_step (acc : list (list value) * list Z) (row : string * Z)
  : list (list value) * list Z :=
  let '(X_list, y_list) := acc in
  let '(url, label) := row in
  match feature_values url with
  | Ok values => (X_list ++ [values], y_list ++ [label])
  | Raise _ => (X_list, y_list)
  end.

(** Whether [extract_features] returns on the URL of a row: [urlparse]
    accepts it. *)
Definition kept (row : string * Z) : bool :=
  match urlparse (fst row) with Ok _ => true | Raise _ => false end.

(** [extract_features_from_dataset(df)]: [(X, y)]. *)
Definition extract_features_from_dataset (df : list (string * Z))
  : list (list value) * list Z :=
  fold_left dataset_step df ([], []).

End WithLibraries.
End Trainer.

Module Failing.

(** A [tldextract] that raises on every input, and the program linked
    with it. *)
Definition extract_raises (url : string) : result ExtractResult :=
  Raise (OtherException "suffix list unavailable").

Definition libraries : Libraries :=
  Scenario.cpython Scenario.no_ip_address extract_raises Scenario.log2_zero.

(** A classifier whose calls raise an exception that is neither a
    [RuntimeError] nor a [ValueError]. *)
Definition broken_classifier : ModelLoader.Estimator :=
  {| ModelLoader.estimator_predict := λ _, Raise (OtherException "corrupt booster");
     ModelLoader.estimator_predict_proba := λ _, Raise (OtherException "corrupt booster");
     ModelLoader.estimator_bool := Ok true |}.

Definition broken : nat * ModelLoader.World :=
  Scenario.boot (Scenario.trained broken_classifier).

(** A storage whose model file cannot be unpickled, and one that holds a
    pickled [None]. *)
Definition corrupt_files : gmap string (result (option ModelLoader.Estimator)) :=
  {[ Scenario.model_file := Raise (OtherException "invalid load key") ]}.

Definition none_files : gmap string (result (option ModelLoader.Estimator)) :=
  {[ Scenario.model_file := Ok None ]}.

End Failing.

(* ===================================================================== *)
(** * Properties                                                          *)
(* ===================================================================== *)

(** Reduce the binds of the [result] monad, and nothing else. *)
Ltac result_simpl :=
  cbn [mbind result_bind mret result_ret fmap result_fmap] in *.

(** Read a key of a dictionary built by successive assignments. *)
Ltac lookup_features :=
  repeat first [ rewrite lookup_insert_eq | rewrite lookup_insert_ne by done ].

Lemma Ok_inj {A} (a b : A) : Ok a = Ok b → a = b.
Proof. congruence. Qed.

Lemma Respond_inj {A} (a b : A) : Main.Respond a = Main.Respond b → a = b.
Proof. congruence. Qed.

Lemma pair_fst_eq {A B} (p : A * B) (a : A) : fst p = a → p = (a, snd p).
Proof. intros <-. by destruct p. Qed.

Lemma list_to_set_reverse_L (l : list string) :
  list_to_set (C := gset string) (reverse l) = list_to_set l.
Proof.
  apply set_eq. intros k. rewrite !elem_of_list_to_set. apply elem_of_reverse.
Qed.

Section FeatureFacts.
Context {L : Libraries}.
Import URLFeatureExtractor.

(** The only statement of [extract_features] that can raise is the first
    call of [urlparse], which is outside the [try] block. *)
Lemma extract_features_raises url e :
  urlparse url = Raise e → extract_features url = Raise e.
Proof. intros H. unfold extract_features. rewrite H. reflexivity. Qed.

Lemma extract_features_returns url parsed :
  urlparse url = Ok parsed → ∃ features, extract_features url = Ok features.
Proof.
  intros H. unfold extract_features. rewrite H. result_simpl. eauto.
Qed.

Lemma extract_features_Ok_inv url features :
  extract_features url = Ok features → ∃ parsed, urlparse url = Ok parsed.
Proof.
  unfold extract_features. destruct (urlparse url) as [parsed|e]; [eauto|].
  result_simpl. discriminate.
Qed.

(** Every returned dictionary has the keys of [get_feature_names], whether
    or not the [try] block completed. *)
Lemma extract_features_dom url features :
  extract_features url = Ok features →
  dom features = list_to_set get_feature_names.
Proof.
  unfold extract_features, structural_features.
  destruct (urlparse url) as [parsed|e]; result_simpl; [|discriminate].
  destruct (tldextract_extract url) as [extracted|e]; result_simpl;
    intros H; apply Ok_inj in H; rewrite <- H;
    unfold default_features; rewrite !dom_insert_L, dom_empty_L;
    (etrans; [|apply list_to_set_reverse_L]);
    unfold get_feature_names; cbv [reverse rev_append list_to_set foldr];
    reflexivity.
Qed.

Lemma extract_features_lookup url features name :
  extract_features url = Ok features →
  name ∈ get_feature_names →
  ∃ v, features !! name = Some v.
Proof.
  intros H Hin. apply extract_features_dom in H.
  assert (name ∈ dom features) as Hd by (rewrite H; by apply elem_of_list_to_set).
  apply elem_of_dom in Hd as [v Hv]. eauto.
Qed.

(** The values written before and after the [try] block. *)
Lemma extract_features_literal url features :
  extract_features url = Ok features →
  features !! "url_length" = Some (VInt (len url))
  ∧ features !! "num_dots" = Some (VInt (count url "."))
  ∧ features !! "has_at_symbol" = Some (flag (contains "@" url))
  ∧ features !! "has_phishing_keyword" =
      Some (flag (existsb (λ keyword, contains keyword (lower url))
                    phishing_keywords)).
Proof.
  unfold extract_features, structural_features.
  destruct (urlparse url) as [parsed|e]; result_simpl; [|discriminate].
  destruct (tldextract_extract url) as [extracted|e]; result_simpl;
    intros H; apply Ok_inj in H; rewrite <- H; unfold default_features;
    repeat split; lookup_features; reflexivity.
Qed.

(** The values written by a [try] block that completed. *)
Lemma extract_features_structural url parsed extracted features :
  urlparse url = Ok parsed →
  tldextract_extract url = Ok extracted →
  extract_features url = Ok features →
  let is_ip := Re.re_match ip_pattern (host_of (Urllib.netloc parsed)) in
  features !! "is_ip_address" = Some (flag is_ip)
  ∧ features !! "has_port" =
      Some (flag (contains ":" (Urllib.netloc parsed) && negb is_ip))
  ∧ features !! "has_suspicious_tld" =
      Some (flag (existsb (λ tld, endswith url tld) suspicious_tlds)).
Proof.
  intros Hp He. unfold extract_features, structural_features.
  rewrite Hp, He. result_simpl.
  intros H; apply Ok_inj in H; rewrite <- H.
  repeat split; lookup_features; reflexivity.
Qed.

(** The values written by the [except] branch. *)
Lemma extract_features_defaults url parsed e features name :
  urlparse url = Ok parsed →
  tldextract_extract url = Raise e →
  extract_features url = Ok features →
  name ∈ ["subdomain_length"; "has_subdomain"; "num_subdomains";
          "path_length"; "num_path_tokens"; "has_query_params";
          "num_query_params"; "is_ip_address"; "has_port"; "tld_length";
          "has_suspicious_tld"] →
  features !! name = Some (VInt 0).
Proof.
  intros Hp He. unfold extract_features, structural_features.
  rewrite Hp, He. result_simpl.
  intros H; apply Ok_inj in H; rewrite <- H. unfold default_features.
  intros Hin. repeat (apply elem_of_cons in Hin as [->|Hin];
    [lookup_features; reflexivity|]).
  by apply elem_of_nil in Hin.
Qed.

End FeatureFacts.

(** ** The regular expression of the IP test *)

Lemma append_String c x y : String c x +:+ y = String c (x +:+ y).
Proof. reflexivity. Qed.

Lemma append_EmptyString y : "" +:+ y = y.
Proof. reflexivity. Qed.

Section Regex.
Import Re.

Local Ltac run_found :=
  cbn [String.length all_chars String.append fst snd];
  repeat match goal with H : is_decimal _ = true |- _ => rewrite H end;
  cbn [andb]; repeat split; (lia || reflexivity).

Lemma elem_matches_Seq r1 r2 st st'' :
  st'' ∈ matches (Seq r1 r2) st ↔
  ∃ st', st' ∈ matches r1 st ∧ st'' ∈ matches r2 st'.
Proof.
  cbn [matches]. rewrite list_elem_of_bind. naive_solver.
Qed.

Lemma elem_matches_Chr c n s st' :
  st' ∈ matches (Chr c) (n, s) ↔ s = String c (snd st') ∧ fst st' = S n.
Proof.
  cbn [matches fst snd]. destruct s as [|a s].
  - split; [by intros ?%elem_of_nil | by intros [? _]].
  - destruct (Ascii.eqb_spec a c) as [->|Hne].
    + rewrite list_elem_of_singleton. destruct st' as [n' s']; cbn [fst snd].
      split; [by intros [= -> ->] | by intros [[= ->] ->]].
    + split; [by intros ?%elem_of_nil | intros [[= ? _] _]; done].
Qed.

Lemma elem_matches_Bos s st' :
  st' ∈ matches Bos (O, s) ↔ st' = (O, s).
Proof. cbn [matches fst]. apply list_elem_of_singleton. Qed.

Lemma elem_matches_Eos st st' :
  st' ∈ matches Eos st ↔
  st' = st ∧ (snd st = "" ∨ snd st = String "010" "").
Proof.
  cbn [matches]. destruct (snd st) as [|c [|c' s]].
  - rewrite list_elem_of_singleton. naive_solver.
  - destruct (Ascii.eqb_spec c "010") as [->|Hne].
    + rewrite list_elem_of_singleton. naive_solver.
    + split; [by intros ?%elem_of_nil | intros [_ [|[= ?]]]; done].
  - split; [by intros ?%elem_of_nil | intros [_ [|]]; done].
Qed.

(** [\d{1,3}] consumes a run of one to three digits, and every such run
    at the front of the input is a way to match it. *)
Lemma elem_matches_octet n s st' :
  st' ∈ matches (Repeat Digit 1 3) (n, s) ↔
  ∃ run, Spec.digit_run run ∧ s = run +:+ snd st'
         ∧ fst st' = (n + String.length run)%nat.
Proof.
  unfold Spec.digit_run. cbn [matches iterate Nat.pred fst snd].
  rewrite app_nil_r. split.
  - destruct s as [|c1 [|c2 [|c3 s3]]];
      repeat (cbn [mbind list_bind fst snd app];
              match goal with
              | |- context [is_decimal ?c] => destruct (is_decimal c) eqn:?
              end);
      cbn [mbind list_bind fst snd app]; intros Hin;
      repeat (apply elem_of_cons in Hin as [->|Hin]);
      try (by apply elem_of_nil in Hin);
      first
        [ exists (String c1 (String c2 (String c3 ""))); by run_found
        | exists (String c1 (String c2 "")); by run_found
        | exists (String c1 ""); by run_found ].
  - intros (run & [Hlen Hdig] & -> & Hfst). destruct st' as [n' rest].
    cbn [fst snd] in *. subst n'.
    destruct run as [|c1 [|c2 [|c3 [|c4 run]]]];
      cbn [String.length] in Hlen; try lia;
      cbn [all_chars] in Hdig;
      repeat (apply andb_prop in Hdig as [? Hdig]);
      rewrite ?append_String, append_EmptyString;
      repeat (cbn [mbind list_bind fst snd app];
              match goal with
              | H : is_decimal ?c = true |- context [is_decimal ?c] =>
                  rewrite H; clear H
              end);
      cbn [mbind list_bind fst snd app String.length];
      rewrite ?Nat.add_1_r, ?(Nat.add_comm n 2), ?(Nat.add_comm n 3);
      cbn [Nat.add]; rewrite ?app_nil_r, ?elem_of_app, ?elem_of_cons;
      auto 6.
Qed.

Lemma re_match_true r s :
  re_match r s = true ↔ ∃ st', st' ∈ matches r (O, s).
Proof.
  unfold re_match. destruct (matches r (O, s)) as [|st l].
  - split; [done | by intros [? ?%elem_of_nil]].
  - split; [intros _; exists st; apply list_elem_of_here | done].
Qed.

(** What the IP pattern accepts: four dot-separated digit runs, followed
    by nothing or by one final newline (the reading of [$]). *)
Lemma ip_pattern_matches s :
  re_match URLFeatureExtractor.ip_pattern s = true ↔
  ∃ a b c d tail,
    Spec.digit_run a ∧ Spec.digit_run b ∧ Spec.digit_run c ∧ Spec.digit_run d
    ∧ s = a +:+ "." +:+ b +:+ "." +:+ c +:+ "." +:+ d +:+ tail
    ∧ (tail = "" ∨ tail = String "010" "").
Proof.
  rewrite re_match_true. unfold URLFeatureExtractor.ip_pattern. split.
  - intros (st8 & H).
    apply elem_matches_Seq in H as (st0 & ->%elem_matches_Bos & H).
    apply elem_matches_Seq in H as ([n1 s1] & (a & Ha & -> & _)%elem_matches_octet & H).
    apply elem_matches_Seq in H as ([n2 s2] & [-> _]%elem_matches_Chr & H).
    apply elem_matches_Seq in H as ([n3 s3] & (b & Hb & -> & _)%elem_matches_octet & H).
    apply elem_matches_Seq in H as ([n4 s4] & [-> _]%elem_matches_Chr & H).
    apply elem_matches_Seq in H as ([n5 s5] & (c & Hc & -> & _)%elem_matches_octet & H).
    apply elem_matches_Seq in H as ([n6 s6] & [-> _]%elem_matches_Chr & H).
    apply elem_matches_Seq in H as ([n7 s7] & (d & Hd & -> & _)%elem_matches_octet & H).
    apply elem_matches_Eos in H as [-> Htail]. cbn [fst snd] in *.
    exists a, b, c, d, s7. done.
  - intros (a & b & c & d & tail & Ha & Hb & Hc & Hd & -> & Htail).
    set (la := String.length a). set (lb := String.length b).
    set (lc := String.length c). set (ld := String.length d).
    exists (la + 1 + lb + 1 + lc + 1 + ld, tail)%nat.
    apply elem_matches_Seq. exists (O, a +:+ "." +:+ b +:+ "." +:+ c +:+ "." +:+ d +:+ tail).
    split; [by apply elem_matches_Bos|].
    apply elem_matches_Seq. exists (la, "." +:+ b +:+ "." +:+ c +:+ "." +:+ d +:+ tail).
    split; [apply elem_matches_octet; by exists a|].
    apply elem_matches_Seq. exists (S la, b +:+ "." +:+ c +:+ "." +:+ d +:+ tail).
    split; [by apply elem_matches_Chr|].
    apply elem_matches_Seq. exists (S la + lb, "." +:+ c +:+ "." +:+ d +:+ tail)%nat.
    split; [apply elem_matches_octet; by exists b|].
    apply elem_matches_Seq. exists (S (S la + lb), c +:+ "." +:+ d +:+ tail)%nat.
    split; [by apply elem_matches_Chr|].
    apply elem_matches_Seq. exists (S (S la + lb) + lc, "." +:+ d +:+ tail)%nat.
    split; [apply elem_matches_octet; by exists c|].
    apply elem_matches_Seq. exists (S (S (S la + lb) + lc), d +:+ tail)%nat.
    split; [by apply elem_matches_Chr|].
    apply elem_matches_Seq. exists (S (S (S la + lb) + lc) + ld, tail)%nat.
    split; [apply elem_matches_octet; by exists d|].
    apply elem_matches_Eos. split; [|done]. f_equal. lia.
Qed.

Lemma append_assoc_L (x y z : string) : (x +:+ y) +:+ z = x +:+ (y +:+ z).
Proof. induction x as [|c x IH]; [done|]. rewrite !append_String. by f_equal. Qed.

Lemma append_empty_r (x : string) : x +:+ "" = x.
Proof. induction x as [|c x IH]; [done|]. rewrite append_String. by f_equal. Qed.

(** No range check: every dotted quad of digit runs is accepted. *)
Lemma dotted_quad_matches s :
  Spec.dotted_quad s → re_match URLFeatureExtractor.ip_pattern s = true.
Proof.
  intros (a & b & c & d & -> & Ha & Hb & Hc & Hd).
  apply ip_pattern_matches. exists a, b, c, d, "".
  rewrite append_empty_r. auto 10.
Qed.

(** Nothing else is accepted, up to one final newline. *)
Lemma matches_dotted_quad s :
  re_match URLFeatureExtractor.ip_pattern s = true →
  Spec.dotted_quad s
  ∨ ∃ q, Spec.dotted_quad q ∧ s = q +:+ String "010" "".
Proof.
  intros (a & b & c & d & tail & Ha & Hb & Hc & Hd & -> & [->| ->])%ip_pattern_matches.
  - left. exists a, b, c, d. by rewrite append_empty_r.
  - right. exists (a +:+ "." +:+ b +:+ "." +:+ c +:+ "." +:+ d).
    split; [by exists a, b, c, d|].
    by rewrite !append_assoc_L.
Qed.

(** With the newline that [$] lets pass, the pattern accepts exactly the
    dotted quads. *)
Lemma ip_pattern_accepts s :
  re_match URLFeatureExtractor.ip_pattern s = true ↔
  Spec.dotted_quad s ∨ ∃ q, Spec.dotted_quad q ∧ s = q +:+ String "010" "".
Proof.
  split; [apply matches_dotted_quad|].
  intros [H|(q & (a & b & c & d & -> & Ha & Hb & Hc & Hd) & ->)];
    [by apply dotted_quad_matches|].
  apply ip_pattern_matches. exists a, b, c, d, (String "010" "").
  rewrite !append_assoc_L. auto 10.
Qed.

End Regex.

(** ** The host the pattern is applied to *)

Section HostFacts.
Import URLFeatureExtractor.

Lemma host_of_String c s :
  host_of (String c s) = if Ascii.eqb c ":" then "" else String c (host_of s).
Proof.
  unfold host_of. cbn [split]. destruct (Ascii.eqb c ":"); [done|].
  by destruct (split s ":").
Qed.

(** [netloc.split(':')[0]] is the host of the authority ... *)
Lemma host_of_authority_total netloc :
  Spec.host_of_authority netloc (host_of netloc).
Proof.
  induction netloc as [|c s [IH1 IH2]].
  - split; [done|by left].
  - rewrite host_of_String. destruct (Ascii.eqb c ":") eqn:Hc.
    + apply Ascii.eqb_eq in Hc as ->. split; [done|]. right. by exists s.
    + split; [cbn [all_chars]; by rewrite Hc|].
      destruct IH2 as [H|[port H]].
      * left. by rewrite <- H.
      * right. exists port. by rewrite H at 1.
Qed.

(** ... and nothing else is. *)
Lemma host_of_authority_unique netloc host :
  Spec.host_of_authority netloc host → host_of netloc = host.
Proof.
  intros [Hn [->| [port ->]]].
  - induction host as [|c h IH]; [done|].
    cbn [all_chars] in Hn. apply andb_true_iff in Hn as [Hc Hn].
    rewrite host_of_String. apply negb_true_iff in Hc. rewrite Hc.
    by rewrite IH.
  - induction host as [|c h IH]; [done|].
    cbn [all_chars] in Hn. apply andb_true_iff in Hn as [Hc Hn].
    change (String c h +:+ String ":" port)
      with (String c (h +:+ String ":" port)).
    rewrite host_of_String. apply negb_true_iff in Hc. rewrite Hc.
    by rewrite IH.
Qed.

End HostFacts.

(** ** The two decision policies *)

Section DecisionFacts.
Import ModelLoader Main.

Lemma getitem_Some (d : gmap string value) k v :
  d !! k = Some v → getitem d k = Ok v.
Proof. intros H. unfold getitem. by rewrite H. Qed.

(** The loop of the heuristic block computes the indicator count of the
    specification. *)
Lemma risk_indicators_of_count (features : gmap string value) :
  (∀ name, name ∈ ["has_at_symbol"; "is_ip_address"; "has_suspicious_tld";
                   "has_phishing_keyword"; "url_length"; "num_dots"] →
           is_Some (features !! name)) →
  risk_indicators_of features = Ok (Spec.indicator_count features).
Proof.
  intros Hkeys. unfold risk_indicators_of, Spec.indicator_count, Spec.signals.
  destruct (Hkeys "has_at_symbol") as [v1 H1]; [set_solver|].
  destruct (Hkeys "is_ip_address") as [v2 H2]; [set_solver|].
  destruct (Hkeys "has_suspicious_tld") as [v3 H3]; [set_solver|].
  destruct (Hkeys "has_phishing_keyword") as [v4 H4]; [set_solver|].
  destruct (Hkeys "url_length") as [v5 H5]; [set_solver|].
  destruct (Hkeys "num_dots") as [v6 H6]; [set_solver|].
  rewrite H1, H2, H3, H4, H5, H6.
  rewrite (getitem_Some _ _ _ H1), (getitem_Some _ _ _ H2),
    (getitem_Some _ _ _ H3), (getitem_Some _ _ _ H4),
    (getitem_Some _ _ _ H5), (getitem_Some _ _ _ H6).
  result_simpl. cbn [from_option].
  destruct (truthy v1), (truthy v2), (truthy v3), (truthy v4),
    (value_gt v5 75), (value_gt v6 4); reflexivity.
Qed.

Lemma risk_indicators_of_range (features : gmap string value) k :
  risk_indicators_of features = Ok k → (0 ≤ k ≤ 6)%Z.
Proof.
  unfold risk_indicators_of.
  destruct (getitem features "has_at_symbol") as [v1|]; [|discriminate].
  destruct (getitem features "is_ip_address") as [v2|]; [|discriminate].
  destruct (getitem features "has_suspicious_tld") as [v3|]; [|discriminate].
  destruct (getitem features "has_phishing_keyword") as [v4|]; [|discriminate].
  destruct (getitem features "url_length") as [v5|]; [|discriminate].
  destruct (getitem features "num_dots") as [v6|]; [|discriminate].
  result_simpl. intros [= <-]. unfold bump.
  destruct (truthy v1), (truthy v2), (truthy v3), (truthy v4),
    (value_gt v5 75), (value_gt v6 4); lia.
Qed.

Lemma small_cases (P : Z → Prop) :
  P 0%Z → P 1%Z → P 2%Z → P 3%Z → P 4%Z → P 5%Z → P 6%Z →
  ∀ k, (0 ≤ k ≤ 6)%Z → P k.
Proof.
  intros ??????? k Hk.
  assert (k = 0 ∨ k = 1 ∨ k = 2 ∨ k = 3 ∨ k = 4 ∨ k = 5 ∨ k = 6)%Z
    as [->|[->|[->|[->|[->|[->| ->]]]]]] by lia; done.
Qed.

(** On a count between 0 and 6 the cap [min(_, 100)] returns its first
    argument. *)
Lemma heuristic_risk_score_uncapped k :
  (0 ≤ k ≤ 6)%Z →
  heuristic_risk_score k = (inject_Z k / 6 * 100)%Q.
Proof.
  revert k. apply small_cases; reflexivity.
Qed.

Lemma heuristic_risk_score_bounds k :
  (0 ≤ k ≤ 6)%Z →
  (0 <= heuristic_risk_score k)%Q ∧ (heuristic_risk_score k <= 100)%Q
  ∧ Exists (Qeq (heuristic_risk_score k)) Spec.heuristic_scores.
Proof.
  revert k. apply small_cases; (split; [|split]); try done;
    unfold Spec.heuristic_scores;
    repeat first [ (apply Exists_cons_hd; reflexivity) | apply Exists_cons_tl ].
Qed.

Section WithLibraries.
Context {L : Libraries}.

Lemma mapM_getitem (d : gmap string value) (names : list string) :
  (∀ name, name ∈ names → ∃ v, d !! name = Some v) →
  ∃ row, mapM (getitem d) names = Ok row ∧ length row = length names.
Proof.
  induction names as [|name names IH]; intros Hall.
  - exists []. done.
  - destruct (Hall name) as [v Hv]; [apply list_elem_of_here|].
    destruct IH as (row & Hrow & Hlen).
    { intros n Hn. apply Hall. by apply list_elem_of_further. }
    exists (v :: row). split; [|cbn; by rewrite Hlen].
    cbn [mapM]. rewrite (getitem_Some _ _ _ Hv). result_simpl.
    rewrite Hrow. reflexivity.
Qed.

(** The feature row of an extracted dictionary is always built, and has
    one entry per feature name. *)
Lemma feature_matrix_returns url features :
  URLFeatureExtractor.extract_features url = Ok features →
  ∃ row, feature_matrix features = Ok [row] ∧ length row = 30%nat.
Proof.
  intros H. destruct (mapM_getitem features URLFeatureExtractor.get_feature_names)
    as (row & Hrow & Hlen).
  { intros name Hin. by eapply extract_features_lookup. }
  exists row. split; [|done]. unfold feature_matrix. rewrite Hrow. reflexivity.
Qed.

(** On an extracted dictionary the count is always computed. *)
Lemma risk_indicators_of_extracted url features :
  URLFeatureExtractor.extract_features url = Ok features →
  risk_indicators_of features = Ok (Spec.indicator_count features).
Proof.
  intros H. apply risk_indicators_of_count. intros name Hin.
  destruct (extract_features_lookup url features name H) as [v Hv]; [|by eexists].
  unfold URLFeatureExtractor.get_feature_names.
  repeat (apply elem_of_cons in Hin as [->|Hin]; [set_solver|]).
  by apply elem_of_nil in Hin.
Qed.

(** The heuristic block never raises on an extracted dictionary. *)
Lemma heuristic_decision_returns url features :
  URLFeatureExtractor.extract_features url = Ok features →
  heuristic_decision url features =
    Ok {| url := url;
          prediction := if (3 <=? Spec.indicator_count features)%Z
                        then "Phishing" else "Benign";
          confidence := if (3 <=? Spec.indicator_count features)%Z
                        then 0.75%Q else 0.80%Q;
          risk_score := heuristic_risk_score (Spec.indicator_count features);
          features := Some features;
          message := "Demo mode prediction (model not trained yet)" |}.
Proof.
  intros H. unfold heuristic_decision.
  by rewrite (risk_indicators_of_extracted _ _ H).
Qed.

Lemma get_model_not_loaded self w :
  health_check self w = false →
  get_model self w = Raise (RuntimeError "Model not loaded. Call load_model() first.").
Proof.
  unfold health_check, get_model. by destruct (getattr__model w self).
Qed.

Lemma get_model_loaded self w :
  health_check self w = true →
  ∃ id est, get_model self w = Ok (PyObject id est).
Proof.
  unfold health_check, get_model. destruct (getattr__model w self); [done|eauto].
Qed.

(** [get_model] never returns [None]: it raises instead. *)
Lemma get_model_not_None self w : get_model self w ≠ Ok PyNone.
Proof. unfold get_model. by destruct (getattr__model w self). Qed.

(** The heuristic path of [predict_url]. *)
Lemma predict_url_not_loaded model_loader w url features :
  health_check model_loader w = false →
  URLFeatureExtractor.extract_features url = Ok features →
  predict_url model_loader w url =
    match heuristic_decision url features with
    | Ok response => Respond response
    | Raise e =>
        if is_ValueError e then HTTPException 400 (str_of_exc e)
        else HTTPException 500 ("Internal server error: " +:+ str_of_exc e)
    end.
Proof.
  intros Hm Hf. unfold predict_url, predict_url_body. rewrite Hf. result_simpl.
  destruct (feature_matrix_returns url features Hf) as (row & -> & _).
  result_simpl. rewrite (get_model_not_loaded _ _ Hm). result_simpl.
  cbn [is_RuntimeError]. reflexivity.
Qed.

(** The model path of [predict_url]. *)
Lemma predict_url_loaded model_loader w url features fv model :
  URLFeatureExtractor.extract_features url = Ok features →
  feature_matrix features = Ok fv →
  get_model model_loader w = Ok model →
  predict_url model_loader w url =
    match model_decision url features model fv with
    | Ok response => Respond response
    | Raise e =>
        if is_RuntimeError e then
          match heuristic_decision url features with
          | Ok response => Respond response
          | Raise e' =>
              if is_ValueError e' then HTTPException 400 (str_of_exc e')
              else HTTPException 500 ("Internal server error: " +:+ str_of_exc e')
          end
        else if is_ValueError e then HTTPException 400 (str_of_exc e)
        else HTTPException 500 ("Internal server error: " +:+ str_of_exc e)
    end.
Proof.
  intros Hf Hv Hm. unfold predict_url, predict_url_body.
  rewrite Hf. result_simpl. rewrite Hv. result_simpl. rewrite Hm. result_simpl.
  destruct (model_decision url features model fv) as [r|e]; [done|].
  destruct (is_RuntimeError e); done.
Qed.

End WithLibraries.
End DecisionFacts.

(** ** The model gateway *)

Section LoaderFacts.
Import ModelLoader Main.

Lemma getattr_setattr w self v :
  getattr__model (setattr__model w self v) self = v.
Proof.
  unfold getattr__model, setattr__model. cbn [heap].
  rewrite lookup_insert_eq. cbn [mbind option_bind].
  by rewrite lookup_insert_eq.
Qed.

Lemma getattr_log w self ev :
  getattr__model (log ev w) self = getattr__model w self.
Proof. reflexivity. Qed.

(** A constructed loader starts without an instance attribute. *)
Lemma getattr_new w :
  _instance w = None →
  getattr__model (snd (__new__ w)) (fst (__new__ w)) = PyNone.
Proof.
  intros H. unfold __new__. rewrite H. cbn [fst snd].
  unfold getattr__model. cbn [heap]. rewrite lookup_insert_eq.
  cbn [mbind option_bind]. by rewrite lookup_empty.
Qed.

(** After the first construction the class attribute is set, and every
    later construction returns it without touching the world. *)
Lemma new_instance w :
  _instance (snd (__new__ w)) = Some (fst (__new__ w)).
Proof. unfold __new__. by destruct (_instance w) eqn:H. Qed.

Lemma new_again w self :
  _instance w = Some self → __new__ w = (self, w).
Proof. intros H. unfold __new__. by rewrite H. Qed.

(** A load on a gateway that holds an artifact: nothing is read. *)
Lemma load_model_cached self path w id est :
  getattr__model w self = PyObject id est →
  load_model self path w = (Ok (PyObject id est), w).
Proof. intros H. unfold load_model. by rewrite H. Qed.

Lemma load_model_instance self path w r w' :
  load_model self path w = (r, w') → _instance w' = _instance w.
Proof.
  unfold load_model. destruct (getattr__model w self).
  2: { by intros [= _ <-]. }
  cbn [storage log].
  destruct (storage w !! default (default_model_path w) path) as [[[est|]|e]|];
    intros [= _ <-]; reflexivity.
Qed.

(** What a load leaves in the instance attribute. *)
Lemma load_model_attr self path w r w' :
  load_model self path w = (r, w') →
  match r with
  | Ok obj => getattr__model w' self = obj
  | Raise _ => getattr__model w' self = getattr__model w self
  end.
Proof.
  unfold load_model. destruct (getattr__model w self) eqn:Hattr.
  2: { by intros [= <- <-]. }
  cbn [storage log].
  destruct (storage w !! default (default_model_path w) path) as [[[est|]|e]|];
    intros [= <- <-]; cbn [unpickle]; rewrite ?getattr_setattr; try done.
Qed.

(** A load that raises [FileNotFoundError] only asked whether the path
    exists; it opened nothing. *)
Lemma load_model_missing self path w :
  getattr__model w self = PyNone →
  storage w !! default (default_model_path w) path = None →
  load_model self path w =
    (Raise (FileNotFoundError
              ("Model file not found: " +:+ default (default_model_path w) path)),
     log (PathExists (default (default_model_path w) path)) w).
Proof.
  intros Hattr Hfile. unfold load_model. rewrite Hattr. cbn [storage log].
  by rewrite Hfile.
Qed.

End LoaderFacts.

(** ** Maximum and rounding *)

Lemma max_from_spec cur l :
  (max_from cur l = cur ∨ max_from cur l ∈ l)
  ∧ (cur <= max_from cur l)%Q
  ∧ ∀ x, x ∈ l → (x <= max_from cur l)%Q.
Proof.
  revert cur. induction l as [|y l IH]; intros cur; cbn [max_from].
  - split; [by left|]. split; [apply Qle_refl|]. by intros x ?%elem_of_nil.
  - destruct (Qle_bool y cur) eqn:Hy.
    + apply Qle_bool_iff in Hy. destruct (IH cur) as ([->|Hin] & Hcur & Hall).
      * split; [by left|]. split; [apply Qle_refl|].
        intros x [->|Hx]%elem_of_cons; [done|by apply Hall].
      * split; [right; by apply list_elem_of_further|]. split; [done|].
        intros x [->|Hx]%elem_of_cons; [by eapply Qle_trans|by apply Hall].
    + assert (cur <= y)%Q as Hle.
      { apply Qlt_le_weak, Qnot_le_lt. intros Hc.
        apply Qle_bool_iff in Hc. congruence. }
      destruct (IH y) as ([->|Hin] & Hy' & Hall).
      * split; [right; apply list_elem_of_here|]. split; [done|].
        intros x [->|Hx]%elem_of_cons; [apply Qle_refl|by apply Hall].
      * split; [right; by apply list_elem_of_further|].
        split; [by eapply Qle_trans|].
        intros x [->|Hx]%elem_of_cons; [done|by apply Hall].
Qed.

(** [max] of a non-empty vector is its largest entry. *)
Lemma max_is_maximum x l : Spec.is_maximum (max_from x l) (x :: l).
Proof.
  destruct (max_from_spec x l) as ([->|Hin] & Hx & Hall); split.
  - apply list_elem_of_here.
  - intros y [->|Hy]%elem_of_cons; [apply Qle_refl|by apply Hall].
  - by apply list_elem_of_further.
  - intros y [->|Hy]%elem_of_cons; [done|by apply Hall].
Qed.

(** ** Binary64: the rounding *)

Section Binary64Rounding.
Import Binary64.
Local Open Scope Q_scope.

Lemma pow2_pos e : 0 < pow2 e.
Proof. apply Qpower_0_lt. reflexivity. Qed.

Lemma pow2_add a b : pow2 (a + b) == pow2 a * pow2 b.
Proof. apply Qpower_plus. discriminate. Qed.

Lemma pow2_le a b : (a <= b)%Z → pow2 a <= pow2 b.
Proof. intros H. apply Qpower_le_compat_l; [exact H|discriminate]. Qed.

Lemma pow2_inject n : (0 <= n)%Z → pow2 n == inject_Z (2 ^ n).
Proof. intros H. unfold pow2. symmetry. apply (Zpower_Qpower 2 n H). Qed.

(** The exponent is the one of the binade of [q]. *)
Lemma exponent_spec q :
  0 < q → pow2 (exponent q) <= q ∧ q < pow2 (exponent q + 1).
Proof.
  intros Hq. destruct q as [n d]. unfold exponent. cbn [Qnum Qden].
  assert (0 < n)%Z as Hn by (unfold Qlt in Hq; cbn in Hq; lia).
  set (a := Z.log2 n). set (b := Z.log2 (Z.pos d)).
  assert (0 <= a)%Z as Ha by apply Z.log2_nonneg.
  assert (0 <= b)%Z as Hb by apply Z.log2_nonneg.
  destruct (Z.log2_spec n Hn) as [Hn1 Hn2]. fold a in Hn1, Hn2.
  destruct (Z.log2_spec (Z.pos d) eq_refl) as [Hd1 Hd2]. fold b in Hd1, Hd2.
    assert (∀ e, pow2 e <= n # d ↔ pow2 e * inject_Z (Z.pos d) <= inject_Z n) as Hle.
  { intros e. rewrite (Qmake_Qdiv n d). split; intros H.
    - apply (Qmult_le_r _ _ (inject_Z (Z.pos d))) in H; [|reflexivity].
      setoid_replace (inject_Z n / inject_Z (Z.pos d) * inject_Z (Z.pos d))
        with (inject_Z n) using relation Qeq in H by (field; discriminate).
      exact H.
    - apply Qle_shift_div_l; [reflexivity|exact H]. }
  assert (∀ e, n # d < pow2 e ↔ inject_Z n < pow2 e * inject_Z (Z.pos d)) as Hlt.
  { intros e. rewrite (Qmake_Qdiv n d). split; intros H.
    - apply (Qmult_lt_r _ _ (inject_Z (Z.pos d))) in H; [|reflexivity].
      setoid_replace (inject_Z n / inject_Z (Z.pos d) * inject_Z (Z.pos d))
        with (inject_Z n) using relation Qeq in H by (field; discriminate).
      exact H.
    - apply Qlt_shift_div_r; [reflexivity|exact H]. }
  assert (pow2 (a - b - 1) * inject_Z (Z.pos d) <= inject_Z n) as Hlow.
  { apply Qle_trans with (pow2 (a - b - 1) * pow2 (b + 1)).
    - apply Qmult_le_l; [apply pow2_pos|].
      rewrite pow2_inject by lia. rewrite <- Zle_Qle. lia.
    - rewrite <- pow2_add. replace (a - b - 1 + (b + 1))%Z with a by lia.
      rewrite pow2_inject by lia. rewrite <- Zle_Qle. lia. }
  assert (inject_Z n < pow2 (a - b + 1) * inject_Z (Z.pos d)) as Hup.
  { apply Qlt_le_trans with (pow2 (a - b + 1) * pow2 b).
    - rewrite <- pow2_add. replace (a - b + 1 + b)%Z with (a + 1)%Z by lia.
      rewrite pow2_inject by lia. rewrite <- Zlt_Qlt.
      replace (a + 1)%Z with (Z.succ a) by lia. lia.
    - apply Qmult_le_l; [apply pow2_pos|].
      rewrite pow2_inject by lia. rewrite <- Zle_Qle. lia. }
  destruct (Qle_bool (pow2 (a - b)) (n # d)) eqn:Hc.
  - apply Qle_bool_iff in Hc. split; [exact Hc|]. apply Hlt. exact Hup.
  - split.
    + apply Hle. exact Hlow.
    + replace (a - b - 1 + 1)%Z with (a - b)%Z by lia.
      apply Qnot_le_lt. intros H. apply Qle_bool_iff in H. congruence.
Qed.

Lemma round_half_even_floor x :
  (Qfloor x <= round_half_even x <= Qfloor x + 1)%Z.
Proof.
  unfold round_half_even. destruct (Qcompare _ _); [destruct (Z.even _)| |]; lia.
Qed.

(** An integer below [x] is below its rounding, and likewise above. *)
Lemma round_half_even_ge a x : inject_Z a <= x → (a <= round_half_even x)%Z.
Proof.
  intros H. pose proof (round_half_even_floor x).
  assert (a <= Qfloor x)%Z; [|lia].
  rewrite <- (Qfloor_Z a). now apply Qfloor_resp_le.
Qed.

Lemma round_half_even_le b x : x <= inject_Z b → (round_half_even x <= b)%Z.
Proof.
  intros H. unfold round_half_even.
  pose proof (Qfloor_le x) as Hf. pose proof (Qlt_floor x) as Hc.
  assert (Qfloor x <= b)%Z as Hb.
  { rewrite <- (Qfloor_Z b). now apply Qfloor_resp_le. }
  destruct (Z.eq_dec (Qfloor x) b) as [Heq|Hne].
  - assert (x == inject_Z (Qfloor x)) as Hx.
    { apply Qle_antisym; [rewrite Heq; exact H|exact Hf]. }
    assert ((x - inject_Z (Qfloor x) ?= 1 # 2) = Lt) as ->; [|lia].
    rewrite <- Qlt_alt. rewrite Hx at 1.
    setoid_replace (inject_Z (Qfloor x) - inject_Z (Qfloor x)) with 0
      using relation Qeq by ring.
    reflexivity.
  - destruct (Qcompare _ _); [destruct (Z.even _)| |]; lia.
Qed.

(** [round_half_even] is a nearest integer, the even one at a tie. *)
Lemma round_half_even_nearest x :
  Qabs (inject_Z (round_half_even x) - x) <= 1 # 2
  ∧ (Qabs (inject_Z (round_half_even x) - x) == 1 # 2 →
      Z.even (round_half_even x) = true).
Proof.
  unfold round_half_even.
  pose proof (Qfloor_le x) as Hf. pose proof (Qlt_floor x) as Hc.
  set (f := Qfloor x) in *.
  rewrite inject_Z_plus in Hc. change (inject_Z 1) with 1 in Hc.
  destruct (Qcompare (x - inject_Z f) (1 # 2)) eqn:Hcmp.
  - apply Qeq_alt in Hcmp.
    assert (x == inject_Z f + (1 # 2)) as Hx by (rewrite <- Hcmp; ring).
    destruct (Z.even f) eqn:He.
    + split; [|auto].
      setoid_replace (inject_Z f - x) with (- (1 # 2))
        using relation Qeq by (rewrite Hx; ring).
      discriminate.
    + split.
      * rewrite inject_Z_plus.
        setoid_replace (inject_Z f + inject_Z 1 - x) with (1 # 2)
          using relation Qeq by (rewrite Hx; ring).
        discriminate.
      * intros _. rewrite Z.even_add, He. reflexivity.
  - apply Qlt_alt in Hcmp. split.
    + apply Qabs_Qle_condition. split; lra.
    + intros Heq. exfalso.
      assert (inject_Z f - x <= 0) as Hs by lra.
      rewrite (Qabs_neg _ Hs) in Heq. lra.
  - apply Qgt_alt in Hcmp. rewrite inject_Z_plus.
    change (inject_Z 1) with 1 in *. split.
    + apply Qabs_Qle_condition. split; lra.
    + intros Heq. exfalso.
      assert (0 <= inject_Z f + 1 - x) as Hs by lra.
      rewrite (Qabs_pos _ Hs) in Heq. lra.
Qed.

Lemma Qabs_pos_lt q : ¬ q == 0 → 0 < Qabs q.
Proof.
  intros Hq. destruct (Qlt_le_dec 0 (Qabs q)) as [H|H]; [exact H|].
  exfalso. apply Hq. apply Qabs_Qle_condition in H. lra.
Qed.

Lemma ulp_pos q : 0 < ulp q.
Proof. apply pow2_pos. Qed.

Lemma pow2_inv j : / pow2 j == pow2 (- j).
Proof. unfold pow2. symmetry. apply Qpower_opp. Qed.

Lemma rnd_zero q : q == 0 → rnd q = 0.
Proof.
  intros H. unfold rnd. apply Qeq_bool_iff in H. rewrite H. reflexivity.
Qed.

Lemma rnd_nonzero q :
  ¬ q == 0 → rnd q == inject_Z (round_half_even (q / ulp q)) * ulp q.
Proof.
  intros H. unfold rnd. destruct (Qeq_bool q 0) eqn:E.
  - apply Qeq_bool_iff in E. contradiction.
  - apply Qred_correct.
Qed.

(** The significand of a number, on the grid of its binade, is below
    [2^53]. *)
Lemma significand_bound q :
  ¬ q == 0 → Qabs (q / ulp q) < inject_Z (2 ^ 53).
Proof.
  intros Hq.
  pose proof (Qabs_pos_lt q Hq) as Ha.
  destruct (exponent_spec _ Ha) as [_ Hup].
  unfold Qdiv. rewrite Qabs_Qmult.
  rewrite (Qabs_pos (/ ulp q)) by (apply Qlt_le_weak, Qinv_lt_0_compat, ulp_pos).
  unfold ulp in *. rewrite pow2_inv.
  set (e := exponent (Qabs q)) in *.
  apply Qlt_le_trans with (pow2 (e + 1) * pow2 (- (Z.max e (-1022) - 52))).
  - apply Qmult_lt_r; [apply pow2_pos|exact Hup].
  - rewrite <- pow2_add, <- (pow2_inject 53) by lia.
    apply pow2_le. lia.
Qed.

(** [rnd q] is a multiple of the spacing at [q] with a significand of at
    most 53 bits, and on this grid the multiple nearest to [q], the even
    one at a tie. *)
Theorem rnd_nearest q :
  ∃ k : Z,
    rnd q == inject_Z k * ulp q
    ∧ (Z.abs k <= 2 ^ 53)%Z
    ∧ Qabs (rnd q - q) <= ulp q * (1 # 2)
    ∧ (Qabs (rnd q - q) == ulp q * (1 # 2) → Z.even k = true).
Proof.
  pose proof (ulp_pos q) as Hu.
  destruct (Qeq_dec q 0) as [H0|Hq].
  - exists 0%Z. rewrite (rnd_zero _ H0). split; [ring|]. split; [lia|].
    setoid_replace (0 - q) with 0 using relation Qeq by (rewrite H0; ring).
    change (Qabs 0) with 0. split; [lra|reflexivity].
  - set (x := q / ulp q). exists (round_half_even x).
    pose proof (rnd_nonzero _ Hq) as Hr. fold x in Hr.
    destruct (round_half_even_nearest x) as [Hn He].
    assert (rnd q - q == (inject_Z (round_half_even x) - x) * ulp q) as Hd.
    { rewrite Hr. unfold x. field. lra. }
    split; [exact Hr|]. split; [|split].
    + pose proof (significand_bound _ Hq) as Hs. fold x in Hs.
      apply Qlt_le_weak, Qabs_Qle_condition in Hs as [Hs1 Hs2].
      apply round_half_even_le in Hs2.
      assert (inject_Z (- 2 ^ 53) <= x) as Hs3
        by (rewrite inject_Z_opp; exact Hs1).
      apply round_half_even_ge in Hs3. lia.
    + rewrite Hd, Qabs_Qmult, (Qabs_pos (ulp q)) by lra.
      rewrite (Qmult_comm (ulp q)). apply Qmult_le_compat_r; [exact Hn|lra].
    + intros Ht. apply He.
      rewrite Hd, Qabs_Qmult, (Qabs_pos (ulp q)) in Ht by lra.
      rewrite (Qmult_comm (ulp q)) in Ht.
      apply Qmult_inj_r in Ht; [exact Ht|lra].
Qed.

(** Rounding does not leave an interval between 0 and an integer below
    [2^53]: both ends are floats. *)
Lemma rnd_range q N :
  (N < 2 ^ 53)%Z → 0 <= q <= inject_Z N → 0 <= rnd q <= inject_Z N.
Proof.
  intros HN [Hq0 HqN].
  destruct (Qeq_dec q 0) as [H0|Hq].
  { rewrite (rnd_zero _ H0). split; [lra|]. lra. }
  assert (0 < q) as Hpos by lra.
  rewrite (rnd_nonzero _ Hq).
  pose proof (ulp_pos q) as Hu.
  destruct (exponent_spec _ Hpos) as [Hlow _].
  assert (exponent (Qabs q) = exponent q) as Habs.
  { unfold exponent, Qabs. destruct q as [[|n|n] d]; try reflexivity.
    unfold Qlt in Hpos. cbn in Hpos. lia. }
  assert (exponent q < 53)%Z as He.
  { apply (Qpower_lt_compat_l_inv 2); [|reflexivity].
    change (pow2 (exponent q) < pow2 53).
    apply Qle_lt_trans with (inject_Z N); [lra|].
    rewrite pow2_inject by lia. rewrite <- Zlt_Qlt. exact HN. }
  unfold ulp in *. rewrite Habs in *.
  set (j := (Z.max (exponent q) (-1022) - 52)%Z) in *.
  assert (j <= 0)%Z as Hj by lia.
  assert (pow2 (- j) * pow2 j == 1) as Hinv.
  { rewrite <- pow2_add. replace (- j + j)%Z with 0%Z by lia. reflexivity. }
  split.
  - apply Qmult_le_0_compat; [|lra].
    change 0 with (inject_Z 0). rewrite <- Zle_Qle.
    apply round_half_even_ge. change (inject_Z 0) with 0.
    apply Qle_shift_div_l; lra.
  - assert (round_half_even (q / pow2 j) <= N * 2 ^ (- j))%Z as Hk.
    { apply round_half_even_le. rewrite inject_Z_mult.
      rewrite <- pow2_inject by lia. unfold Qdiv. rewrite pow2_inv.
      apply Qmult_le_compat_r; [exact HqN|]. apply Qlt_le_weak, pow2_pos. }
    apply Qle_trans with (inject_Z (N * 2 ^ (- j)) * pow2 j).
    + apply Qmult_le_compat_r; [|lra]. rewrite <- Zle_Qle. exact Hk.
    + rewrite inject_Z_mult, <- pow2_inject by lia.
      rewrite <- Qmult_assoc, Hinv. lra.
Qed.

(** [round] to decimals does not leave an interval between 0 and an
    integer either. *)
Lemma round_range q N ndigits :
  0 <= q <= inject_Z N → 0 <= Py.round q ndigits <= inject_Z N.
Proof.
  intros [Hq0 HqN]. unfold Py.round. cbv zeta.
  set (scale := (10 ^ Z.of_nat ndigits)%Z).
  assert (0 < scale)%Z as Hs by (apply Z.pow_pos_nonneg; lia).
  assert (0 < inject_Z scale) as Hs'.
  { change 0 with (inject_Z 0). rewrite <- Zlt_Qlt. exact Hs. }
  rewrite (Qmake_Qdiv (round_half_even _) (Z.to_pos scale)).
  rewrite Z2Pos.id by exact Hs. split.
  - apply Qle_shift_div_l; [exact Hs'|]. rewrite Qmult_0_l.
    change 0 with (inject_Z 0). rewrite <- Zle_Qle.
    apply round_half_even_ge. change (inject_Z 0) with 0.
    apply Qmult_le_0_compat; lra.
  - apply Qle_shift_div_r; [exact Hs'|]. rewrite <- inject_Z_mult, <- Zle_Qle.
    apply round_half_even_le. rewrite inject_Z_mult.
    apply Qmult_le_compat_r; lra.
Qed.

(** A probability is between 0 and 1. *)
Lemma probability_range l q :
  forallb Spec.probability l = true → q ∈ l → 0 <= q <= 1.
Proof.
  intros Hall Hin. rewrite forallb_forall in Hall.
  apply list_elem_of_In, Hall in Hin. unfold Spec.probability in Hin.
  apply andb_prop in Hin as [Hin H1]. apply andb_prop in Hin as [_ H0].
  apply Qle_bool_iff in H0, H1. auto.
Qed.

(** The two numbers of a response of the model path are in their
    ranges. *)
Lemma model_path_ranges m p :
  0 <= m <= 1 → 0 <= p <= 1 →
  0 <= Binary64.round m 4 <= 1
  ∧ 0 <= Binary64.round (Binary64.mul p 100) 2 <= 100.
Proof.
  intros Hm Hp. unfold Binary64.round, Binary64.mul. split.
  - apply (rnd_range _ 1); [reflexivity|].
    apply (round_range _ 1). exact Hm.
  - apply (rnd_range _ 100); [reflexivity|].
    apply (round_range _ 100).
    apply (rnd_range _ 100); [reflexivity|].
    change (inject_Z 100) with 100. lra.
Qed.

End Binary64Rounding.

(** ** Binary64: the processor's floats, and examples *)

Section Binary64Facts.
Import PrimFloat.

(** The rounding of [Binary64] against the processor's.  On these
    operands, which include the probabilities of the examples below, the
    quotient and the product of primitive floats are the floats that
    [rnd] and [mul] give: the quotients are the floats Python writes
    0.1, 0.9, 0.3, 0.7, 0.33333, 0.66667, 0.50035 and 0.12345, and
    subnormal and large numbers; the products are those of a probability
    and 100. *)
Lemma binary64_agrees_with_primitive_floats :
  forallb (λ '(n, d), Binary64.agree_on_quotient n d)
    [(1, 10); (9, 10); (3, 10); (7, 10); (33333, 100000); (66667, 100000);
     (50035, 100000); (12345, 100000); (1, 3); (2, 3); (0x1p-1070, 3);
     (0x1p-1074, 2); (0x3p-1074, 2); (0x1p1000, 3); (1, 0x1p1023)]%float
  = true
  ∧ forallb (λ '(x, y), Binary64.agree_on_product x y)
      [(9 / 10, 100); (7 / 10, 100); (1 / 10, 100); (3 / 10, 100);
       (33333 / 100000, 100); (66667 / 100000, 100); (57 / 100, 100);
       (29 / 100, 100); (1 / 3, 100); (1, 100); (0, 100);
       (0x1p-1070, 3 / 10); (0x1p900, 7 / 10)]%float = true.
Proof. split; vm_compute; reflexivity. Qed.

(** [round] on floats whose decimal expansion is close to a tie: the
    float written 0.50035 is below that decimal and is rounded down to
    0.5003, 0.12345 is above and is rounded up to 0.1235, 0.00005 is
    above and is rounded to 0.0001; 0.125, a float, is a tie and goes to
    the even 0.12; and 2.675 is below its decimal and goes to 2.67. *)
Lemma round_float_examples :
  Binary64.round (Binary64.rnd 0.50035) 4 = Binary64.rnd 0.5003
  ∧ Binary64.round (Binary64.rnd 0.12345) 4 = Binary64.rnd 0.1235
  ∧ Binary64.round (Binary64.rnd 0.00005) 4 = Binary64.rnd 0.0001
  ∧ Binary64.round (Binary64.rnd 0.125) 2 = Binary64.rnd 0.12
  ∧ Binary64.round (Binary64.rnd 2.675) 2 = Binary64.rnd 2.67
  ∧ Binary64.mul (Binary64.rnd 0.7) 100 = 70%Q
  ∧ Binary64.mul (Binary64.rnd 0.9) 100 = 90%Q.
Proof. repeat split; vm_compute; reflexivity. Qed.

End Binary64Facts.

(* ===================================================================== *)
(** * The claims of the specification                                     *)
(* ===================================================================== *)

Section Claims.
Import ModelLoader Main.

(** C1 (the code violates it).  The specification says that
    [extract_features] returns a 30-key dictionary for every string and
    lets no exception escape.  The first call of [urlparse] (for
    [domain_length]) is outside the [try] block, so on a URL whose
    authority has an unbalanced bracket the [ValueError] of [urlparse]
    escapes, whatever [tldextract] and [log2] do.  The URL passes the
    request validation, so the service does receive it. *)
Theorem extract_features_raises_on_unbalanced_bracket
    (ip_address : string → option Urllib.ip_version)
    (extract : string → result ExtractResult) (log2 : Q → Q) :
  validate_url "http://[" = Ok "http://["
  ∧ @URLFeatureExtractor.extract_features
      (Scenario.cpython ip_address extract log2) "http://["
    = Raise (ValueError "Invalid IPv6 URL").
Proof.
  split; [reflexivity|]. apply extract_features_raises. reflexivity.
Qed.

(** C6.  [is_ip_address] is a pattern-only test of the host.  The host is
    that of the glossary, where an authority is host[:port]: the text of
    the authority before its first colon, all of it when it has none;
    every authority has exactly one.  When the decomposition succeeds,
    - the feature is 1 when the pattern matches the host and 0 when it
      does not, and it is 1 exactly when the host is four dot-separated
      runs of one to three decimal digits, possibly followed by the one
      newline that [$] lets pass;
    - the pattern accepts every such quad, whatever the value of its runs
      (no octet range validation), and nothing else;
    - under CPython's [urlparse] and any [tldextract] that returns on the
      URL, the hosts ["192.168.1.1"] and ["999.999.999.999"] give 1 and
      ["example.com"] gives 0; a port after the host does not change the
      feature; five runs, a run of four digits and a quad followed by a
      name give 0; and so does a quad behind user information, which the
      glossary's authority does not have and which stays in front of the
      host.
    Strings are those of the embedding (code points 0 to 255), among
    which the decimal digits that [\d] matches are ["0"] to ["9"]; the
    decimal digits of other scripts, which [\d] also matches, are not
    represented. *)
Theorem is_ip_address_pattern_only :
  (∀ (L : Libraries) url parsed extracted features host,
     urlparse url = Ok parsed →
     tldextract_extract url = Ok extracted →
     URLFeatureExtractor.extract_features url = Ok features →
     Spec.host_of_authority (Urllib.netloc parsed) host →
     features !! "is_ip_address" =
       Some (VInt (if Re.re_match URLFeatureExtractor.ip_pattern host
                   then 1 else 0))
     ∧ (features !! "is_ip_address" = Some (VInt 1) ↔
        Spec.dotted_quad host
        ∨ ∃ q, Spec.dotted_quad q ∧ host = q +:+ String "010" ""))
  ∧ (∀ netloc,
       (∃ host, Spec.host_of_authority netloc host)
       ∧ ∀ host host',
           Spec.host_of_authority netloc host →
           Spec.host_of_authority netloc host' → host = host')
  ∧ (∀ s, Spec.dotted_quad s →
          Re.re_match URLFeatureExtractor.ip_pattern s = true)
  ∧ (∀ s, Re.re_match URLFeatureExtractor.ip_pattern s = true →
          Spec.dotted_quad s
          ∨ ∃ q, Spec.dotted_quad q ∧ s = q +:+ String "010" "")
  ∧ (∀ ip_address extract log2 url expected extracted features,
       (url, expected) ∈
         [("http://192.168.1.1", 1%Z);
          ("http://example.com", 0%Z);
          ("http://999.999.999.999", 1%Z);
          ("https://192.168.1.1:8443/login", 1%Z);
          ("http://example.com:8080/", 0%Z);
          ("http://1.2.3.4.5/", 0%Z);
          ("http://1234.1.1.1/", 0%Z);
          ("http://192.168.1.1.example.com/", 0%Z);
          ("http://user@192.168.1.1/", 0%Z)] →
       extract url = Ok extracted →
       @URLFeatureExtractor.extract_features
         (Scenario.cpython ip_address extract log2) url = Ok features →
       features !! "is_ip_address" = Some (VInt expected)).
Proof.
  split; [|split; [|split; [|split]]].
  - intros L url parsed extracted features host Hp He Hf Hhost.
    destruct (extract_features_structural url parsed extracted features Hp He Hf)
      as (H & _).
    rewrite (host_of_authority_unique _ _ Hhost) in H. unfold flag in H.
    split; [exact H|]. rewrite H, <- ip_pattern_accepts.
    destruct (Re.re_match _ host); split; intros; done.
  - intros netloc. split.
    + exists (URLFeatureExtractor.host_of netloc).
      apply host_of_authority_total.
    + intros host host' H H'.
      by rewrite <- (host_of_authority_unique _ _ H),
                 <- (host_of_authority_unique _ _ H').
  - apply dotted_quad_matches.
  - apply matches_dotted_quad.
  - intros ip_address extract log2 url expected extracted features Hin He Hf.
    pose proof (λ url features Hf He parsed Hp,
      proj1 (extract_features_structural
               (L := Scenario.cpython ip_address extract log2)
               url parsed extracted features Hp He Hf)) as H.
    repeat (apply elem_of_cons in Hin as [[= -> ->]|Hin];
      [exact (H _ _ Hf He _ eq_refl)|]).
    by apply elem_of_nil in Hin.
Qed.

(** C7.  When the decomposition succeeds, [is_ip_address = 1] forces
    [has_port = 0], colon or not; and [has_port = 1] exactly when the
    authority contains [':'] and the host is not an IP literal. *)
Theorem has_port_excludes_ip_literal
    (L : Libraries) url parsed extracted features :
  urlparse url = Ok parsed →
  tldextract_extract url = Ok extracted →
  URLFeatureExtractor.extract_features url = Ok features →
  (features !! "is_ip_address" = Some (VInt 1) →
   features !! "has_port" = Some (VInt 0))
  ∧ (features !! "has_port" = Some (VInt 1) ↔
     contains ":" (Urllib.netloc parsed) = true
     ∧ features !! "is_ip_address" = Some (VInt 0)).
Proof.
  intros Hp He Hf.
  destruct (extract_features_structural url parsed extracted features Hp He Hf)
    as (-> & -> & _).
  destruct (Re.re_match _ _), (contains ":" _); cbn; split;
    try done; split; intros; destruct_and?; done.
Qed.

End Claims.

Section ClaimsDecision.
Import ModelLoader Main.

(** The secondary policy is not reached while no model is loaded:
    [get_model] raises, and the handler of [scan_url_direct] decides by the
    substrings ['phishing'] and ['secure-'] alone. *)
Lemma scan_url_direct_not_loaded (L : Libraries) model_loader w url features :
  health_check model_loader w = false →
  startswith url "http://" || startswith url "https://" = true →
  URLFeatureExtractor.extract_features url = Ok features →
  scan_url_direct model_loader w url =
    ScanResult url (snd (scan_fallback url)) (round 0.75 4)
      (if String.eqb (snd (scan_fallback url)) "Phishing"
       then "HIGH RISK: This URL is highly likely to be a phishing attempt. Do not proceed."
       else "This URL appears to be legitimate.")
      false.
Proof.
  intros Hm Hs Hf. unfold scan_url_direct, scan_decision.
  rewrite Hs, Hf. cbn [negb]. rewrite (get_model_not_loaded _ _ Hm).
  result_simpl. reflexivity.
Qed.

(** C4.  With no model loaded, the response to an extracted URL is fixed
    by the indicator count [k] of the six signals: label Phishing exactly
    when [k >= 3], confidence 0.75 for Phishing and 0.80 for Benign,
    risk score [min(k/6*100, 100)].  For
    ["http://192.168.1.1/paypal-login-verify.tk"], whenever [tldextract]
    returns, the count is 3 (IP literal, suspicious suffix, keyword), the
    label Phishing and the score 50. *)
Theorem heuristic_path_decision :
  (∀ (L : Libraries) model_loader w url features,
     health_check model_loader w = false →
     URLFeatureExtractor.extract_features url = Ok features →
     let k := Spec.indicator_count features in
     predict_url model_loader w url =
       Respond {| url := url;
                  prediction := if (3 <=? k)%Z then "Phishing" else "Benign";
                  confidence := if (3 <=? k)%Z then 0.75%Q else 0.80%Q;
                  risk_score := Py.min (inject_Z k / 6 * 100)%Q 100;
                  features := Some features;
                  message := "Demo mode prediction (model not trained yet)" |})
  ∧ (∀ ip_address extract log2 extracted model_loader w,
       let url := "http://192.168.1.1/paypal-login-verify.tk" in
       let L := Scenario.cpython ip_address extract log2 in
       extract url = Ok extracted →
       health_check model_loader w = false →
       ∃ features response,
         URLFeatureExtractor.extract_features url = Ok features
         ∧ Spec.signals features = [false; true; true; true; false; false]
         ∧ Spec.indicator_count features = 3%Z
         ∧ predict_url model_loader w url = Respond response
         ∧ prediction response = "Phishing"
         ∧ (risk_score response == 50)%Q).
Proof.
  split.
  - intros L model_loader w url features Hm Hf k.
    rewrite (predict_url_not_loaded _ _ _ _ Hm Hf).
    by rewrite (heuristic_decision_returns _ _ Hf).
  - intros ip_address extract log2 extracted model_loader w url L He Hm.
    destruct (extract_features_returns (L := L) url
                {| Urllib.scheme := "http"; Urllib.netloc := "192.168.1.1";
                   Urllib.path := "/paypal-login-verify.tk";
                   Urllib.params := ""; Urllib.query := "";
                   Urllib.fragment := "" |} eq_refl) as [features Hf].
    destruct (extract_features_structural (L := L) url _ extracted features
                eq_refl He Hf) as (Hip & _ & Htld).
    destruct (extract_features_literal (L := L) url features Hf)
      as (Hlen & Hdots & Hat & Hkw).
    assert (Spec.signals features = [false; true; true; true; false; false])
      as Hsig.
    { unfold Spec.signals. rewrite Hip, Htld, Hlen, Hdots, Hat, Hkw.
      reflexivity. }
    assert (Spec.indicator_count features = 3%Z) as Hk.
    { unfold Spec.indicator_count. rewrite Hsig. reflexivity. }
    eexists features, _. split; [done|]. split; [done|]. split; [done|].
    split.
    + rewrite (predict_url_not_loaded _ _ _ _ Hm Hf).
      rewrite (heuristic_decision_returns _ _ Hf). reflexivity.
    + cbn [prediction risk_score]. rewrite Hk. split; reflexivity.
Qed.

(** C10.  On the heuristic path the indicator count is an integer between
    0 and 6, the cap [min(_, 100)] returns its first argument, and the
    risk score lies in [0, 100] and is one of the seven values
    [k/6 * 100]. *)
Theorem heuristic_risk_score_range
    (L : Libraries) model_loader w url response :
  health_check model_loader w = false →
  predict_url model_loader w url = Respond response →
  ∃ fs k,
    features response = Some fs
    ∧ risk_indicators_of fs = Ok k
    ∧ (0 ≤ k ≤ 6)%Z
    ∧ risk_score response = (inject_Z k / 6 * 100)%Q
    ∧ (0 <= risk_score response)%Q ∧ (risk_score response <= 100)%Q
    ∧ Exists (Qeq (risk_score response)) Spec.heuristic_scores.
Proof.
  intros Hm Hr.
  destruct (URLFeatureExtractor.extract_features url) as [fs|e] eqn:Hf.
  2: { unfold predict_url, predict_url_body in Hr. rewrite Hf in Hr.
       result_simpl. by destruct (is_ValueError e). }
  rewrite (predict_url_not_loaded _ _ _ _ Hm Hf) in Hr.
  rewrite (heuristic_decision_returns _ _ Hf) in Hr.
  pose proof (risk_indicators_of_extracted _ _ Hf) as Hk.
  pose proof (risk_indicators_of_range _ _ Hk) as Hrange.
  apply Respond_inj in Hr as <-.
  exists fs, (Spec.indicator_count fs). cbn [features risk_score].
  split; [done|]. split; [done|]. split; [done|].
  split; [by apply heuristic_risk_score_uncapped|].
  by apply heuristic_risk_score_bounds.
Qed.

End ClaimsDecision.

Section ClaimsModelPath.
Import ModelLoader Main.

Lemma model_decision_predict_raises url features model fv e :
  Spec.prediction_call_fails model fv e →
  model_decision url features model fv = Raise e.
Proof.
  unfold model_decision. intros [H|(label & labels & H1 & H2)].
  - by rewrite H.
  - rewrite H1. result_simpl. cbn [index lookup list_lookup]. result_simpl.
    by rewrite H2.
Qed.

(** C2 as the specification states it fails: a classifier trained on 29
    features is loaded; on the 30-feature row of any request [predict]
    raises the [ValueError] of a shape mismatch, and the request ends in
    an HTTP 400 error, not in the heuristic payload. *)
Lemma shape_mismatch_is_http_400 :
  get_model (fst Service.narrow) (snd Service.narrow)
    = Ok (PyObject 1 Scenario.narrow_classifier)
  ∧ (∀ row : list value, length row = 30%nat →
       call_predict (PyObject 1 Scenario.narrow_classifier) [row]
       = Raise (ValueError "Feature shape mismatch, expected: 29, got 30"))
  ∧ @predict_url Scenario.reference (fst Service.narrow)
        (snd Service.narrow) "http://example.com"
      = HTTPException 400 "Feature shape mismatch, expected: 29, got 30".
Proof.
  split; [vm_compute; reflexivity|]. split.
  - intros row Hlen. cbn [call_predict Scenario.narrow_classifier
      estimator_predict forallb]. by rewrite Hlen.
  - vm_compute; reflexivity.
Qed.

(** C2 (amended).  With a model loaded, a failure of the prediction call
    becomes the heuristic payload only when the exception is a
    [RuntimeError]; a [ValueError] ends the request with status 400 and
    any other exception with status 500. *)
Theorem prediction_failure_handling
    (L : Libraries) model_loader w url features fv model e :
  URLFeatureExtractor.extract_features url = Ok features →
  feature_matrix features = Ok fv →
  get_model model_loader w = Ok model →
  Spec.prediction_call_fails model fv e →
  predict_url model_loader w url =
    if is_RuntimeError e then
      Respond {| url := url;
                 prediction := if (3 <=? Spec.indicator_count features)%Z
                               then "Phishing" else "Benign";
                 confidence := if (3 <=? Spec.indicator_count features)%Z
                               then 0.75%Q else 0.80%Q;
                 risk_score :=
                   heuristic_risk_score (Spec.indicator_count features);
                 features := Some features;
                 message := "Demo mode prediction (model not trained yet)" |}
    else if is_ValueError e then HTTPException 400 (str_of_exc e)
    else HTTPException 500 ("Internal server error: " +:+ str_of_exc e).
Proof.
  intros Hf Hv Hm Hfail.
  rewrite (predict_url_loaded _ _ _ _ _ _ Hf Hv Hm).
  rewrite (model_decision_predict_raises _ _ _ _ _ Hfail).
  by rewrite (heuristic_decision_returns _ _ Hf).
Qed.

(** C3 as the specification states it fails: for the probabilities
    [[0.33333, 0.66667]] the largest entry is the float 0.66667 and the
    phishing entry times 100 is the float 66.667, while the response
    carries the confidence 0.6667 and the risk score 66.67, which are
    other floats. *)
Lemma confidence_is_rounded :
  get_model (fst Service.fine) (snd Service.fine)
    = Ok (PyObject 1 Scenario.fine_classifier)
  ∧ (∀ X, call_predict_proba (PyObject 1 Scenario.fine_classifier) X
          = Ok [[Binary64.rnd 0.33333; Binary64.rnd 0.66667]])
  ∧ forallb Spec.probability [Binary64.rnd 0.33333; Binary64.rnd 0.66667]
    = true
  ∧ max [Binary64.rnd 0.33333; Binary64.rnd 0.66667]
    = Ok (Binary64.rnd 0.66667)
  ∧ (Binary64.mul (Binary64.rnd 0.66667) 100 == Binary64.rnd 66.667)%Q
  ∧ (∃ features,
       @predict_url Scenario.reference (fst Service.fine) (snd Service.fine)
         "http://example.com"
       = Respond {| url := "http://example.com"; prediction := "Phishing";
                    confidence := Binary64.rnd 0.6667;
                    risk_score := Binary64.rnd 66.67;
                    features := Some features;
                    message :=
                      "LOW RISK: This URL may be suspicious. Verify before proceeding." |})
  ∧ Qeq_bool (Binary64.rnd 0.6667) (Binary64.rnd 0.66667) = false
  ∧ Qeq_bool (Binary64.rnd 66.67) (Binary64.rnd 66.667) = false.
Proof.
  split; [vm_compute; reflexivity|]. split; [reflexivity|].
  split; [vm_compute; reflexivity|]. split; [vm_compute; reflexivity|].
  split; [vm_compute; reflexivity|].
  split; [|split; vm_compute; reflexivity].
  destruct (extract_features_returns (L := Scenario.reference)
              "http://example.com"
              {| Urllib.scheme := "http"; Urllib.netloc := "example.com";
                 Urllib.path := ""; Urllib.params := ""; Urllib.query := "";
                 Urllib.fragment := "" |} eq_refl) as [features Hf].
  destruct (feature_matrix_returns _ _ Hf) as (row & Hrow & _).
  exists features.
  rewrite (predict_url_loaded _ _ _ _ _ (PyObject 1 Scenario.fine_classifier)
             Hf Hrow); [vm_compute; reflexivity|vm_compute; reflexivity].
Qed.

(** C3 (amended).  On the model path, for a non-empty vector of
    probabilities (floats between 0 and 1) returned for the first row:
    the confidence of the response is the largest entry rounded to 4
    decimals, the risk score is the phishing-class entry (index 1, or the
    only entry) times 100 rounded to 2 decimals, the message tier is
    chosen from the product before it is rounded to decimals, and the
    label is Phishing exactly when the predicted class is 1; the
    confidence is between 0 and 1 and the risk score between 0 and 100.
    The product
    and the two roundings are those of floats: the product is the float
    nearest to the exact product, and [round] returns the float nearest
    to the decimal it selects.
    - The stub classifier (class 1, probabilities [[0.1, 0.9]]) yields
      Phishing, the confidence 0.9, the risk score 90.0 and the high-risk
      message.
    - The tiers are decided on floats: for class 1 and the probabilities
      [[0.3, 0.7]] the product is the float 70.0 and the message is the
      medium-risk one, although the value of the float 0.7, taken exactly
      100 times, is below 70. *)
Theorem model_path_decision :
  (∀ (L : Libraries) model_loader w url features fv model
     label labels probabilities rows,
     URLFeatureExtractor.extract_features url = Ok features →
     feature_matrix features = Ok fv →
     get_model model_loader w = Ok model →
     call_predict model fv = Ok (label :: labels) →
     call_predict_proba model fv = Ok (probabilities :: rows) →
     probabilities ≠ [] →
     forallb Spec.probability probabilities = true →
     ∃ m p,
       Spec.is_maximum m probabilities
       ∧ probabilities !! (if (1 <? length probabilities)%nat then 1 else 0)%nat
         = Some p
       ∧ predict_url model_loader w url =
           Respond {| url := url;
                      prediction := if (label =? 1)%Z then "Phishing"
                                    else "Benign";
                      confidence := Binary64.round m 4;
                      risk_score := Binary64.round (Binary64.mul p 100) 2;
                      features := Some features;
                      message :=
                        risk_message
                          (if (label =? 1)%Z then "Phishing" else "Benign")
                          (Binary64.mul p 100) |}
       ∧ ((if (label =? 1)%Z then "Phishing" else "Benign") = "Phishing"
          ↔ label = 1%Z)
       ∧ (0 <= Binary64.round m 4 <= 1)%Q
       ∧ (0 <= Binary64.round (Binary64.mul p 100) 2 <= 100)%Q)
  ∧ (∀ (L : Libraries) model_loader w url features fv model labels rows,
       URLFeatureExtractor.extract_features url = Ok features →
       feature_matrix features = Ok fv →
       get_model model_loader w = Ok model →
       call_predict model fv = Ok (1%Z :: labels) →
       call_predict_proba model fv
         = Ok ([Binary64.rnd 0.1; Binary64.rnd 0.9] :: rows) →
       ∃ response,
         predict_url model_loader w url = Respond response
         ∧ prediction response = "Phishing"
         ∧ confidence response = Binary64.rnd 0.9
         ∧ (risk_score response == 90)%Q
         ∧ message response =
             "HIGH RISK: This URL is highly likely to be a phishing attempt. Do not proceed.")
  ∧ (∀ (L : Libraries) model_loader w url features fv model labels rows,
       URLFeatureExtractor.extract_features url = Ok features →
       feature_matrix features = Ok fv →
       get_model model_loader w = Ok model →
       call_predict model fv = Ok (1%Z :: labels) →
       call_predict_proba model fv
         = Ok ([Binary64.rnd 0.3; Binary64.rnd 0.7] :: rows) →
       (Binary64.rnd 0.7 * 100 < 70)%Q
       ∧ ∃ response,
           predict_url model_loader w url = Respond response
           ∧ confidence response = Binary64.rnd 0.7
           ∧ (risk_score response == 70)%Q
           ∧ message response =
               "MEDIUM RISK: This URL shows signs of phishing. Proceed with caution.").
Proof.
  split; [|split].
  - intros L model_loader w url features fv model label labels probabilities
      rows Hf Hv Hm Hp Hpp Hne Hprob.
    destruct probabilities as [|x l]; [done|].
    exists (max_from x l).
    assert (∃ p, (x :: l) !! (if (1 <? length (x :: l))%nat then 1 else 0)%nat
                 = Some p ∧ phishing_entry (x :: l) = Ok p) as (p & Hp1 & Hp2).
    { unfold phishing_entry, index. destruct l as [|y l]; cbn; eauto. }
    exists p. split; [apply max_is_maximum|]. split; [done|].
    split; [|split].
    + rewrite (predict_url_loaded _ _ _ _ _ _ Hf Hv Hm).
      unfold model_decision. rewrite Hp. result_simpl.
      cbn [index lookup list_lookup]. result_simpl. rewrite Hpp. result_simpl.
      cbn [index lookup list_lookup]. result_simpl.
      rewrite Hp2. result_simpl. cbn [max]. result_simpl. reflexivity.
    + destruct (Z.eqb_spec label 1); split; done.
    + apply model_path_ranges.
      * apply (probability_range _ _ Hprob), max_is_maximum.
      * apply (probability_range _ _ Hprob).
        by apply list_elem_of_lookup_2 in Hp1.
  - intros L model_loader w url features fv model labels rows Hf Hv Hm Hp Hpp.
    eexists. split.
    + rewrite (predict_url_loaded _ _ _ _ _ _ Hf Hv Hm).
      unfold model_decision. rewrite Hp. result_simpl.
      cbn [index lookup list_lookup]. result_simpl. rewrite Hpp. result_simpl.
      cbn [index lookup list_lookup]. result_simpl. reflexivity.
    + cbn [prediction confidence risk_score message].
      repeat split; vm_compute; reflexivity.
  - intros L model_loader w url features fv model labels rows Hf Hv Hm Hp Hpp.
    split; [vm_compute; reflexivity|].
    eexists. split.
    + rewrite (predict_url_loaded _ _ _ _ _ _ Hf Hv Hm).
      unfold model_decision. rewrite Hp. result_simpl.
      cbn [index lookup list_lookup]. result_simpl. rewrite Hpp. result_simpl.
      cbn [index lookup list_lookup]. result_simpl. reflexivity.
    + cbn [prediction confidence risk_score message].
      repeat split; vm_compute; reflexivity.
Qed.

End ClaimsModelPath.

Section ClaimsGateway.
Import ModelLoader Main.

(** C5.  On a gateway that holds no artifact, [get_model], [predict] and
    [predict_proba] raise [RuntimeError]; a load from a path without a
    file raises [FileNotFoundError], which is not a [RuntimeError], and
    leaves the gateway as it was; and once a load has returned an
    artifact, a second load returns the same object and leaves the world,
    storage log included, unchanged. *)
Theorem gateway_not_loaded_and_cached_load self w :
  getattr__model w self = PyNone →
  get_model self w
    = Raise (RuntimeError "Model not loaded. Call load_model() first.")
  ∧ (∀ X, predict self X w
          = Raise (RuntimeError "Model not loaded. Call load_model() first.")
        ∧ predict_proba self X w
          = Raise (RuntimeError "Model not loaded. Call load_model() first."))
  ∧ (∀ path,
       storage w !! default (default_model_path w) path = None →
       ∃ msg w',
         load_model self path w = (Raise (FileNotFoundError msg), w')
         ∧ is_RuntimeError (FileNotFoundError msg) = false
         ∧ io_log w' = io_log w ++ [PathExists (default (default_model_path w) path)]
         ∧ get_model self w'
           = Raise (RuntimeError "Model not loaded. Call load_model() first."))
  ∧ (∀ path id est w1 path',
       load_model self path w = (Ok (PyObject id est), w1) →
       load_model self path' w1 = (Ok (PyObject id est), w1)
       ∧ get_model self w1 = Ok (PyObject id est)).
Proof.
  intros Hattr. assert (get_model self w
    = Raise (RuntimeError "Model not loaded. Call load_model() first.")) as Hget.
  { unfold get_model. by rewrite Hattr. }
  split; [done|]. split.
  { intros X. unfold predict, predict_proba. by rewrite Hget. }
  split.
  - intros path Hfile. eexists _, _.
    split; [by apply load_model_missing|]. split; [done|]. split; [done|].
    unfold get_model. by rewrite getattr_log, Hattr.
  - intros path id est w1 path' Hload.
    pose proof (load_model_attr _ _ _ _ _ Hload) as Hattr1. cbn in Hattr1.
    split; [by apply load_model_cached|].
    unfold get_model. by rewrite Hattr1.
Qed.

(** C9.  [ModelLoader()] always returns the one instance: after a first
    construction and a load that returned an artifact, every further
    construction returns the same handle without changing the world, and
    [get_model] on it returns the loaded artifact; the health endpoint
    reports the model as loaded. *)
Theorem loader_is_a_singleton w path id est w' :
  load_model (fst (__new__ w)) path (snd (__new__ w))
    = (Ok (PyObject id est), w') →
  __new__ (snd (__new__ w)) = __new__ w
  ∧ __new__ w' = (fst (__new__ w), w')
  ∧ get_model (fst (__new__ w')) (snd (__new__ w')) = Ok (PyObject id est)
  ∧ health_check_direct w' = (true, w')
  ∧ get_stats_direct w'
    = (match estimator_bool est with
       | Ok true => "loaded"
       | Ok false => "demo_mode"
       | Raise _ => "error"
       end, w').
Proof.
  intros Hload.
  assert (__new__ (snd (__new__ w)) = __new__ w) as Hsame.
  { rewrite (new_again _ _ (new_instance w)). by destruct (__new__ w). }
  assert (__new__ w' = (fst (__new__ w), w')) as Hnew.
  { apply new_again. rewrite (load_model_instance _ _ _ _ _ Hload).
    apply new_instance. }
  pose proof (load_model_attr _ _ _ _ _ Hload) as Hattr. cbn in Hattr.
  assert (get_model (fst (__new__ w)) w' = Ok (PyObject id est)) as Hget.
  { unfold get_model. by rewrite Hattr. }
  split; [done|]. split; [done|]. split.
  { by rewrite Hnew. }
  unfold health_check_direct, get_stats_direct. rewrite Hnew, Hget. done.
Qed.

(** C8 (the code violates it).  The specification describes the rule list
    of the direct-scan surface as the policy applied while no model is
    loaded.  That branch tests [model is None], but [get_model] raises
    instead of returning [None]; the handler then labels the URL by the
    substrings ['phishing'] and ['secure-'] only.  On
    ["http://example.com/login.php"] the rule ['login.php'] holds and the
    response is Benign. *)
Theorem scan_url_direct_skips_demo_rules
    (ip_address : string → option Urllib.ip_version)
    (extract : string → result ExtractResult) (log2 : Q → Q) :
  let L := Scenario.cpython ip_address extract log2 in
  let url := "http://example.com/login.php" in
  health_check (fst Service.demo) (snd Service.demo) = false
  ∧ demo_rules url = [false; false; true; false; false; false]
  ∧ scan_url_direct (fst Service.demo) (snd Service.demo) url
    = ScanResult url "Benign" 0.7500%Q "This URL appears to be legitimate." false.
Proof.
  intros L url. split; [reflexivity|]. split; [reflexivity|].
  destruct (extract_features_returns (L := L) url
              {| Urllib.scheme := "http"; Urllib.netloc := "example.com";
                 Urllib.path := "/login.php"; Urllib.params := "";
                 Urllib.query := ""; Urllib.fragment := "" |} eq_refl)
    as [features Hf].
  by rewrite (scan_url_direct_not_loaded L (fst Service.demo) (snd Service.demo)
               url features eq_refl eq_refl Hf).
Qed.

End ClaimsGateway.

(** ** The theorems at concrete inputs *)

Section Witnesses.
Import ModelLoader Main.

(** C6 at a host with a port and at a name: for
    ["http://999.999.999.999:8080/"] the host of the authority
    ["999.999.999.999:8080"] is ["999.999.999.999"] and the feature is 1;
    for ["http://example.com/"] it is 0. *)
Lemma is_ip_address_pattern_only_witness :
  ∃ features features',
    @URLFeatureExtractor.extract_features Scenario.reference
      "http://999.999.999.999:8080/" = Ok features
    ∧ features !! "is_ip_address" = Some (VInt 1)
    ∧ @URLFeatureExtractor.extract_features Scenario.reference
        "http://example.com/" = Ok features'
    ∧ features' !! "is_ip_address" = Some (VInt 0).
Proof.
  destruct (extract_features_returns (L := Scenario.reference)
              "http://999.999.999.999:8080/"
              (parsed_http "999.999.999.999:8080" "/") eq_refl)
    as [features Hf].
  destruct (extract_features_returns (L := Scenario.reference)
              "http://example.com/" (parsed_http "example.com" "/") eq_refl)
    as [features' Hf'].
  exists features, features'. split; [exact Hf|].
  split; [|split; [exact Hf'|]].
  - exact (proj1 (proj1 is_ip_address_pattern_only Scenario.reference
                    "http://999.999.999.999:8080/"
                    (parsed_http "999.999.999.999:8080" "/")
                    _ features "999.999.999.999" eq_refl eq_refl Hf
                    (conj eq_refl (or_intror (ex_intro _ "8080" eq_refl))))).
  - exact (proj1 (proj1 is_ip_address_pattern_only Scenario.reference
                    "http://example.com/" (parsed_http "example.com" "/")
                    _ features' "example.com" eq_refl eq_refl Hf'
                    (conj eq_refl (or_introl eq_refl)))).
Defined.

(** C7 at ["http://192.168.1.1:8080/"]: a colon in the authority, an IP
    literal as host, and no port flag. *)
Lemma has_port_excludes_ip_literal_witness :
  ∃ features,
    @URLFeatureExtractor.extract_features Scenario.reference
      "http://192.168.1.1:8080/" = Ok features
    ∧ contains ":" "192.168.1.1:8080" = true
    ∧ features !! "is_ip_address" = Some (VInt 1)
    ∧ features !! "has_port" = Some (VInt 0).
Proof.
  destruct (extract_features_returns (L := Scenario.reference)
              "http://192.168.1.1:8080/" (parsed_http "192.168.1.1:8080" "/")
              eq_refl) as [features Hf].
  exists features. split; [exact Hf|]. split; [reflexivity|].
  pose proof (proj1 (extract_features_structural (L := Scenario.reference)
           "http://192.168.1.1:8080/" (parsed_http "192.168.1.1:8080" "/")
           _ features eq_refl eq_refl Hf)) as Hip.
  split; [exact Hip|].
  exact (proj1 (has_port_excludes_ip_literal Scenario.reference
           "http://192.168.1.1:8080/" (parsed_http "192.168.1.1:8080" "/")
           _ features eq_refl eq_refl Hf) Hip).
Defined.

(** C10 at the request of the specification's example, served without a
    model: the score is 50. *)
Lemma heuristic_risk_score_range_witness :
  ∃ response fs k,
    @predict_url Scenario.reference (fst Service.demo) (snd Service.demo)
      "http://192.168.1.1/paypal-login-verify.tk" = Respond response
    ∧ features response = Some fs
    ∧ risk_indicators_of fs = Ok k
    ∧ (0 ≤ k ≤ 6)%Z
    ∧ risk_score response = (inject_Z k / 6 * 100)%Q
    ∧ (0 <= risk_score response)%Q ∧ (risk_score response <= 100)%Q
    ∧ Exists (Qeq (risk_score response)) Spec.heuristic_scores.
Proof.
  destruct (extract_features_returns (L := Scenario.reference)
              "http://192.168.1.1/paypal-login-verify.tk"
              (parsed_http "192.168.1.1" "/paypal-login-verify.tk") eq_refl)
    as [features Hf].
  pose proof (predict_url_not_loaded (L := Scenario.reference)
                (fst Service.demo) (snd Service.demo) _ features eq_refl Hf)
    as Hr.
  rewrite (heuristic_decision_returns _ _ Hf) in Hr.
  destruct (heuristic_risk_score_range Scenario.reference
           (fst Service.demo) (snd Service.demo) _ _ eq_refl Hr)
    as (fs & k & H).
  eexists _, fs, k. split; [exact Hr|exact H].
Defined.

(** C2 (amended) at a request served by the classifier trained on 29
    features: status 400. *)
Lemma prediction_failure_handling_witness :
  @predict_url Scenario.reference (fst Service.narrow) (snd Service.narrow)
    "http://example.com"
  = HTTPException 400 "Feature shape mismatch, expected: 29, got 30".
Proof.
  destruct (extract_features_returns (L := Scenario.reference)
              "http://example.com" (parsed_http "example.com" "") eq_refl)
    as [features Hf].
  destruct (feature_matrix_returns _ _ Hf) as (row & Hrow & Hlen).
  refine (prediction_failure_handling Scenario.reference
            (fst Service.narrow) (snd Service.narrow) "http://example.com"
            features [row] (PyObject 1 Scenario.narrow_classifier)
            (ValueError "Feature shape mismatch, expected: 29, got 30")
            Hf Hrow _ _).
  - vm_compute; reflexivity.
  - left. cbn [call_predict Scenario.narrow_classifier estimator_predict
      forallb]. rewrite Hlen. reflexivity.
Defined.

(** C5 on the gateway as the import of [main.py] leaves it, with a model
    file in storage. *)
Lemma gateway_not_loaded_and_cached_load_witness :
  getattr__model (snd Service.imported) (fst Service.imported) = PyNone
  ∧ get_model (fst Service.imported) (snd Service.imported)
    = Raise (RuntimeError "Model not loaded. Call load_model() first.")
  ∧ load_model (fst Service.imported) None
      (snd (load_model (fst Service.imported) None (snd Service.imported)))
    = (Ok (PyObject 1 Scenario.stub_classifier),
       snd (load_model (fst Service.imported) None (snd Service.imported))).
Proof.
  assert (getattr__model (snd Service.imported) (fst Service.imported) = PyNone)
    as Hattr by (vm_compute; reflexivity).
  destruct (gateway_not_loaded_and_cached_load _ _ Hattr)
    as (Hget & _ & _ & Hload).
  split; [exact Hattr|]. split; [exact Hget|].
  refine (proj1 (Hload None 1%nat Scenario.stub_classifier _ None _)).
  apply pair_fst_eq. vm_compute; reflexivity.
Defined.

(** C9 from a process that has constructed nothing yet. *)
Lemma loader_is_a_singleton_witness :
  let w := Scenario.fresh_world (Scenario.trained Scenario.stub_classifier) in
  let w' := snd (load_model (fst (__new__ w)) None (snd (__new__ w))) in
  __new__ w' = (0%nat, w')
  ∧ get_model (fst (__new__ w')) (snd (__new__ w'))
    = Ok (PyObject 1 Scenario.stub_classifier)
  ∧ health_check_direct w' = (true, w').
Proof.
  intros w w'.
  assert (load_model (fst (__new__ w)) None (snd (__new__ w))
          = (Ok (PyObject 1 Scenario.stub_classifier), w')) as Hload.
  { apply pair_fst_eq. vm_compute; reflexivity. }
  destruct (loader_is_a_singleton w None 1%nat Scenario.stub_classifier w' Hload)
    as (_ & Hnew & Hget & Hhealth & _).
  split; [exact Hnew|]. split; [exact Hget|exact Hhealth].
Defined.

(** C4 at the URL of the specification, served without a model. *)
Lemma heuristic_path_decision_witness :
  ∃ features response,
    @URLFeatureExtractor.extract_features Scenario.reference
      "http://192.168.1.1/paypal-login-verify.tk" = Ok features
    ∧ Spec.signals features = [false; true; true; true; false; false]
    ∧ Spec.indicator_count features = 3%Z
    ∧ @predict_url Scenario.reference (fst Service.demo) (snd Service.demo)
        "http://192.168.1.1/paypal-login-verify.tk" = Respond response
    ∧ prediction response = "Phishing"
    ∧ (risk_score response == 50)%Q.
Proof.
  exact (proj2 heuristic_path_decision Scenario.no_ip_address
           Scenario.extract_bare Scenario.log2_zero _
           (fst Service.demo) (snd Service.demo) eq_refl eq_refl).
Defined.

(** C3 at a request served by the stub classifier: the largest entry is
    the float 0.9, which is also the phishing entry. *)
Lemma model_path_decision_witness :
  ∃ features,
    @predict_url Scenario.reference (fst Service.stub) (snd Service.stub)
      "http://example.com"
    = Respond {| url := "http://example.com"; prediction := "Phishing";
                 confidence := Binary64.rnd 0.9; risk_score := 90%Q;
                 features := Some features;
                 message :=
                   "HIGH RISK: This URL is highly likely to be a phishing attempt. Do not proceed." |}.
Proof.
  destruct (extract_features_returns (L := Scenario.reference)
              "http://example.com" (parsed_http "example.com" "") eq_refl)
    as [features Hf].
  destruct (feature_matrix_returns _ _ Hf) as (row & Hrow & Hlen).
  exists features.
  destruct (proj1 model_path_decision Scenario.reference
              (fst Service.stub) (snd Service.stub) "http://example.com"
              features [row] (PyObject 1 Scenario.stub_classifier)
              1%Z [] [Binary64.rnd 0.1; Binary64.rnd 0.9] []
              Hf Hrow eq_refl eq_refl eq_refl
              (λ H, eq_ind [Binary64.rnd 0.1; Binary64.rnd 0.9]
                      (λ l, match l with [] => False | _ :: _ => True end)
                      I [] H)
              eq_refl)
    as (m & p & [Hm Hmax] & Hp & Hr & _).
  rewrite Hr. clear Hr.
  injection Hp as <-.
  apply elem_of_cons in Hm as [->|Hm].
  - exfalso.
    assert (Binary64.rnd 0.9 ∈ [Binary64.rnd 0.1; Binary64.rnd 0.9]) as Hin
      by (apply list_elem_of_further, list_elem_of_here).
    apply Hmax in Hin. vm_compute in Hin. exact (Hin eq_refl).
  - apply list_elem_of_singleton in Hm as ->. vm_compute. reflexivity.
Defined.

End Witnesses.

(* ===================================================================== *)
(** * Further properties of the feature extractor                         *)
(* ===================================================================== *)

Section ExtractorProperties.
Import URLFeatureExtractor.

Lemma count_if_bounds p s : (0 ≤ count_if p s ≤ len s)%Z.
Proof.
  unfold len. induction s as [|c s IH]; cbn [count_if String.length]; [lia|].
  destruct (p c); lia.
Qed.

Lemma split_not_nil s c : split s c ≠ [].
Proof.
  destruct s as [|a s]; cbn [split]; [done|].
  destruct (Ascii.eqb a c); [done|]. by destruct (split s c).
Qed.

Lemma prefix_char c a s :
  String.prefix (String c "") (String a s) = Ascii.eqb a c.
Proof.
  cbn [String.prefix]. destruct (Ascii.eqb_spec a c) as [->|Hne].
  - destruct (ascii_dec c c); [by destruct s|done].
  - destruct (ascii_dec c a); congruence.
Qed.

(** [len(s.split(c))] is one more than [s.count(c)]. *)
Lemma length_split_count s c :
  Z.of_nat (length (split s c)) = (count s (String c "") + 1)%Z.
Proof.
  unfold count. induction s as [|a s IH]; [done|].
  cbn [split count_from]. rewrite prefix_char. cbn [String.length Nat.sub].
  destruct (Ascii.eqb a c).
  - cbn [length]. lia.
  - pose proof (split_not_nil s c). destruct (split s c); [done|].
    cbn [length] in *. lia.
Qed.

(** [c in s] holds exactly when [s.count(c)] is positive. *)
Lemma contains_char_count s c :
  contains (String c "") s = (0 <? count s (String c ""))%Z.
Proof.
  unfold count. induction s as [|a s IH]; [done|].
  cbn [contains count_from]. rewrite prefix_char. cbn [String.length Nat.sub].
  destruct (Ascii.eqb a c); cbn [orb].
  - symmetry. apply Z.ltb_lt.
    assert (0 ≤ count_from (String c "") 0 s)%Z; [|lia].
    clear. induction s as [|a s IH]; cbn [count_from]; [lia|].
    rewrite prefix_char. destruct (Ascii.eqb a c); cbn [String.length Nat.sub]; lia.
  - done.
Qed.

Lemma https_is_not_http s :
  startswith s "https://" = true → startswith s "http://" = false.
Proof.
  unfold startswith.
  destruct s as [|c1 [|c2 [|c3 [|c4 [|c5 s]]]]]; cbn [String.prefix];
    repeat (match goal with
            | |- context [ascii_dec ?a ?b] => destruct (ascii_dec a b)
            end; try done); subst; done.
Qed.

Context {L : Libraries}.

(** X1.  [extract_features] returns exactly when its first call of
    [urlparse] does, and then the dictionary has the 30 keys of
    [get_feature_names], no more and no fewer, whether the [try] block
    completed or the [except] branch ran. *)
Theorem extract_features_keys url parsed :
  urlparse url = Ok parsed →
  ∃ features,
    extract_features url = Ok features
    ∧ dom features = list_to_set get_feature_names
    ∧ size features = 30%nat
    ∧ ∀ name, is_Some (features !! name) ↔ name ∈ get_feature_names.
Proof.
  intros Hp. destruct (extract_features_returns url parsed Hp) as [features Hf].
  exists features. pose proof (extract_features_dom _ _ Hf) as Hdom.
  split; [done|]. split; [done|]. split.
  - rewrite <- size_dom, Hdom. rewrite size_list_to_set; [done|].
    apply (bool_decide_unpack _). vm_compute. reflexivity.
  - intros name. by rewrite <- elem_of_dom, Hdom, elem_of_list_to_set.
Qed.

(** X2.  When [tldextract] raises, every one of the eleven features of
    the [try] block is the integer 0, the path and query features
    included although [urlparse] had returned. *)
Theorem structural_defaults_after_tldextract_failure url parsed e features :
  urlparse url = Ok parsed →
  tldextract_extract url = Raise e →
  extract_features url = Ok features →
  Forall (λ name, features !! name = Some (VInt 0))
    ["subdomain_length"; "has_subdomain"; "num_subdomains";
     "path_length"; "num_path_tokens"; "has_query_params";
     "num_query_params"; "is_ip_address"; "has_port"; "tld_length";
     "has_suspicious_tld"].
Proof.
  intros Hp He Hf. apply Forall_forall. intros name Hin.
  by eapply extract_features_defaults.
Qed.

(** X3.  [has_https] and [has_http] are flags, and never both 1. *)
Theorem protocol_flags_exclusive url features :
  extract_features url = Ok features →
  ∃ a b, features !! "has_https" = Some (VInt a)
         ∧ features !! "has_http" = Some (VInt b)
         ∧ (a = 0 ∨ a = 1)%Z ∧ (b = 0 ∨ b = 1)%Z ∧ (a + b ≤ 1)%Z.
Proof.
  unfold extract_features, structural_features.
  destruct (urlparse url) as [parsed|e]; result_simpl; [|discriminate].
  intros H. apply Ok_inj in H.
  exists (if startswith url "https://" then 1 else 0)%Z,
         (if startswith url "http://" then 1 else 0)%Z.
  pose proof (https_is_not_http url) as Hx.
  destruct (tldextract_extract url) as [extracted|e]; result_simpl;
    rewrite <- H; unfold default_features;
    (split; [lookup_features; reflexivity|]);
    (split; [lookup_features; reflexivity|]);
    destruct (startswith url "https://"), (startswith url "http://");
    try (by specialize (Hx eq_refl)); repeat split; auto; lia.
Qed.

(** X4.  [num_digits] lies between 0 and the length of the URL;
    [digit_ratio] is the integer 0 for the empty URL and otherwise the
    quotient of the two, a number between 0 and 1. *)
Theorem digit_ratio_bounds url features :
  extract_features url = Ok features →
  ∃ n, features !! "num_digits" = Some (VInt n)
       ∧ (0 ≤ n ≤ len url)%Z
       ∧ (url = "" → features !! "digit_ratio" = Some (VInt 0))
       ∧ (url ≠ "" →
          ∃ q, features !! "digit_ratio" = Some (VFloat q)
               ∧ (q == inject_Z n / inject_Z (len url))%Q
               ∧ (0 <= q)%Q ∧ (q <= 1)%Q).
Proof.
  unfold extract_features, structural_features.
  destruct (urlparse url) as [parsed|e]; result_simpl; [|discriminate].
  intros H. exists (count_if isdigit url).
  pose proof (count_if_bounds isdigit url) as Hb.
  assert (url ≠ "" → 0 < len url)%Z as Hpos.
  { destruct url; [done|]. unfold len. cbn [String.length]. lia. }
  assert (features !! "num_digits" = Some (VInt (count_if isdigit url))
          ∧ features !! "digit_ratio" =
              Some (if (0 <? len url)%Z
                    then VFloat (inject_Z (count_if isdigit url) / inject_Z (len url))%Q
                    else VInt 0)) as [Hn Hr].
  { destruct (tldextract_extract url) as [extracted|e]; result_simpl;
      apply Ok_inj in H; rewrite <- H; unfold default_features;
      split; lookup_features; reflexivity. }
  split; [done|]. split; [done|]. split.
  - intros ->. by rewrite Hr.
  - intros Hne. specialize (Hpos Hne). rewrite Hr.
    destruct (Z.ltb_spec 0 (len url)); [|lia].
    eexists. split; [done|]. split; [reflexivity|].
    assert (0 < inject_Z (len url))%Q as Hq.
    { change 0%Q with (inject_Z 0). rewrite <- Zlt_Qlt. lia. }
    split.
    + apply Qle_shift_div_l; [done|]. rewrite Qmult_0_l.
      change 0%Q with (inject_Z 0). rewrite <- Zle_Qle. lia.
    + apply Qle_shift_div_r; [done|]. rewrite Qmult_1_l.
      rewrite <- Zle_Qle. lia.
Qed.

(** X5.  When the decomposition succeeds, [num_path_tokens] is the number
    of slashes of the path plus one (1 for an empty path), and
    [num_query_params] is 0 for an empty query and otherwise the number
    of ampersands of the query plus one. *)
Theorem path_and_query_counts url parsed extracted features :
  urlparse url = Ok parsed →
  tldextract_extract url = Ok extracted →
  extract_features url = Ok features →
  features !! "num_path_tokens"
    = Some (VInt (count (Urllib.path parsed) "/" + 1))
  ∧ features !! "num_query_params"
    = Some (VInt (if String.eqb (Urllib.query parsed) "" then 0
                  else count (Urllib.query parsed) "&" + 1))
  ∧ (features !! "has_query_params" = Some (VInt 0)
     ↔ features !! "num_query_params" = Some (VInt 0)).
Proof.
  intros Hp He. unfold extract_features, structural_features.
  rewrite Hp, He. result_simpl.
  intros H; apply Ok_inj in H; rewrite <- H.
  split; [lookup_features; by rewrite length_split_count|]. split.
  - lookup_features.
    destruct (String.eqb (Urllib.query parsed) ""); [done|].
    by rewrite length_split_count.
  - lookup_features. unfold flag.
    destruct (String.eqb (Urllib.query parsed) ""); cbn [negb]; [done|].
    split; [discriminate|]. intros [= Hc].
    pose proof (split_not_nil (Urllib.query parsed) "&").
    destruct (split (Urllib.query parsed) "&"); [done|].
    cbn [length] in Hc. lia.
Qed.

(** X6.  The two features about ['@'] agree: [has_at_symbol] is 1
    exactly when [num_at_symbols] is positive. *)
Theorem at_symbol_features_agree url features :
  extract_features url = Ok features →
  ∃ n, features !! "num_at_symbols" = Some (VInt n)
       ∧ (0 ≤ n)%Z
       ∧ features !! "has_at_symbol" = Some (VInt (if (0 <? n)%Z then 1 else 0)).
Proof.
  unfold extract_features, structural_features.
  destruct (urlparse url) as [parsed|e]; result_simpl; [|discriminate].
  intros H. exists (count url "@").
  assert (0 ≤ count url "@")%Z as Hc.
  { pose proof (length_split_count url "@") as Hl.
    pose proof (split_not_nil url "@") as Hnil.
    destruct (split url "@"); [done|]. cbn [length] in Hl. lia. }
  destruct (tldextract_extract url) as [extracted|e]; result_simpl;
    apply Ok_inj in H; rewrite <- H; unfold default_features;
    (split; [lookup_features; reflexivity|]); (split; [done|]);
    lookup_features; by rewrite contains_char_count.
Qed.

End ExtractorProperties.

(* ===================================================================== *)
(** * Further properties of the model gateway                             *)
(* ===================================================================== *)

Section GatewayProperties.
Import ModelLoader Main.

(** X7.  The storage accesses of a load.  A load never writes the
    storage, and it accesses it in exactly one of three ways, decided by
    the instance and the storage alone: when the instance holds an
    artifact, not at all (the world is unchanged and the artifact is
    returned); when it holds none and the file is missing, by one
    existence test of the path, after which [FileNotFoundError] is raised;
    when it holds none and the file exists, by one existence test followed
    by one read of the path.  The path is the argument, or the default
    path when there is none. *)
Theorem load_model_storage_accesses self path w r w' :
  load_model self path w = (r, w') →
  let p := default (default_model_path w) path in
  storage w' = storage w
  ∧ (getattr__model w self ≠ PyNone →
       w' = w ∧ r = Ok (getattr__model w self))
  ∧ (getattr__model w self = PyNone → storage w !! p = None →
       io_log w' = io_log w ++ [PathExists p]
       ∧ r = Raise (FileNotFoundError ("Model file not found: " +:+ p)))
  ∧ (getattr__model w self = PyNone → is_Some (storage w !! p) →
       io_log w' = io_log w ++ [PathExists p; OpenRead p]).
Proof.
  intros Hload p. revert Hload.
  unfold load_model. destruct (getattr__model w self) eqn:Hattr.
  2: { intros [= <- <-]. repeat split; try done. }
  cbn [storage log]. fold p.
  destruct (storage w !! p) as [[[est|]|e]|] eqn:Hfile;
    intros [= <- <-]; (split; [done|]); (split; [done|]).
  1-3: split; [done|]; intros _ _;
       cbn [unpickle setattr__model io_log log];
       by rewrite <- app_assoc.
  split; [done|]. by intros _ [? [=]].
Qed.

(** X8.  A failed load is not remembered.  When the file cannot be
    unpickled, [load_model] raises the exception of [pickle.load]
    unchanged, the gateway still answers "not loaded", and the next load
    reads the file again. *)
Theorem failed_load_is_retried self path w e :
  getattr__model w self = PyNone →
  storage w !! default (default_model_path w) path = Some (Raise e) →
  let p := default (default_model_path w) path in
  ∃ w1 w2,
    load_model self path w = (Raise e, w1)
    ∧ io_log w1 = io_log w ++ [PathExists p; OpenRead p]
    ∧ get_model self w1
      = Raise (RuntimeError "Model not loaded. Call load_model() first.")
    ∧ load_model self path w1 = (Raise e, w2)
    ∧ io_log w2 = io_log w1 ++ [PathExists p; OpenRead p].
Proof.
  intros Hattr Hfile p.
  assert (∀ w0, getattr__model w0 self = PyNone →
                storage w0 = storage w → base_dir w0 = base_dir w →
                load_model self path w0
                = (Raise e, log (OpenRead p) (log (PathExists p) w0))) as Hstep.
  { intros w0 Ha Hs Hb.
    assert (default_model_path w0 = default_model_path w) as Hd
      by (unfold default_model_path; by rewrite Hb).
    unfold load_model. rewrite Ha. cbn [storage log].
    rewrite Hd, Hs, Hfile. reflexivity. }
  eexists _, _. split; [by apply Hstep|].
  split; [cbn [io_log log]; by rewrite <- app_assoc|].
  split; [unfold get_model; by rewrite !getattr_log, Hattr|].
  split; [apply Hstep; by rewrite ?getattr_log|].
  cbn [io_log log]. by rewrite <- !app_assoc.
Qed.

(** X9.  A file that holds a pickled [None] loads without an exception
    and returns [None], but the gateway stays "not loaded": [get_model]
    raises and the health check reports no model. *)
Theorem pickled_None_is_not_a_model self path w :
  getattr__model w self = PyNone →
  storage w !! default (default_model_path w) path = Some (Ok None) →
  ∃ w1,
    load_model self path w = (Ok PyNone, w1)
    ∧ get_model self w1
      = Raise (RuntimeError "Model not loaded. Call load_model() first.")
    ∧ health_check self w1 = false.
Proof.
  intros Hattr Hfile. eexists. split.
  - unfold load_model. rewrite Hattr. cbn [storage log]. rewrite Hfile.
    cbn [unpickle]. reflexivity.
  - unfold health_check, get_model. by rewrite getattr_setattr.
Qed.

(** X10.  The startup event never propagates an exception, and after it
    the service reports a loaded model exactly when the default path
    holds a file that unpickles to a model. *)
Theorem startup_loads_default_artifact model_loader w :
  getattr__model w model_loader = PyNone →
  health_check model_loader (startup_event model_loader w) = true
  ↔ ∃ est, storage w !! default_model_path w = Some (Ok (Some est)).
Proof.
  intros Hattr. unfold startup_event, health_check, get_model, load_model.
  rewrite Hattr. cbn [storage log default].
  destruct (storage w !! default_model_path w) as [[[est|]|e]|];
    cbn [snd unpickle]; rewrite ?getattr_setattr, ?getattr_log, ?Hattr.
  - split; [eauto|done].
  - split; [done|]. by intros [? [=]].
  - split; [done|]. by intros [? [=]].
  - split; [done|]. by intros [? [=]].
Qed.

(** X11.  The two health endpoints agree: for the module's loader, the
    direct endpoint constructs the same instance, changes nothing and
    reports what [health_check] reports. *)
Theorem health_endpoints_agree model_loader w :
  _instance w = Some model_loader →
  health_check_direct w = (health_check model_loader w, w).
Proof.
  intros Hinst. unfold health_check_direct, health_check.
  rewrite (new_again _ _ Hinst). unfold get_model.
  by destruct (getattr__model w model_loader).
Qed.

End GatewayProperties.

(* ===================================================================== *)
(** * Further properties of the endpoints                                 *)
(* ===================================================================== *)

Section EndpointProperties.
Import ModelLoader Main Endpoints.
Context {L : Libraries}.

(** X12.  A URL that [urlparse] rejects never reaches a decision policy:
    whatever the state of the gateway, [predict_url] answers with status
    400 and the parser's message when the exception is a [ValueError],
    and with status 500 otherwise. *)
Theorem predict_url_extraction_failure model_loader w url e :
  urlparse url = Raise e →
  predict_url model_loader w url =
    if is_ValueError e then HTTPException 400 (str_of_exc e)
    else HTTPException 500 ("Internal server error: " +:+ str_of_exc e).
Proof.
  intros Hp. unfold predict_url, predict_url_body.
  rewrite (extract_features_raises _ _ Hp). reflexivity.
Qed.

(** X13.  The direct-scan surface answers with an error payload in two
    cases only: a URL without the [http://] or [https://] prefix, and a
    URL that [urlparse] rejects.  In every other case, whatever the
    gateway holds and whatever the model does, it answers with a label
    that is Phishing or Benign, the message that goes with the label, and
    [fromCache] false. *)
Theorem scan_url_direct_outcomes model_loader w url :
  match scan_url_direct model_loader w url with
  | ScanError error url' =>
      url' = url
      ∧ ((startswith url "http://" || startswith url "https://" = false
          ∧ error = "URL must start with http:// or https://")
         ∨ (startswith url "http://" || startswith url "https://" = true
            ∧ ∃ e, urlparse url = Raise e
                   ∧ error = "Analysis failed: " +:+ str_of_exc e))
  | ScanResult url' prediction confidence message fromCache =>
      url' = url ∧ fromCache = false
      ∧ startswith url "http://" || startswith url "https://" = true
      ∧ (∃ parsed, urlparse url = Ok parsed)
      ∧ ((prediction = "Phishing"
          ∧ message = "HIGH RISK: This URL is highly likely to be a phishing attempt. Do not proceed.")
         ∨ (prediction = "Benign"
            ∧ message = "This URL appears to be legitimate."))
  end.
Proof.
  unfold scan_url_direct.
  destruct (startswith url "http://" || startswith url "https://") eqn:Hs;
    cbn [negb]; [|auto].
  destruct (URLFeatureExtractor.extract_features url) as [features|e] eqn:Hf.
  2: { split; [done|]. right. split; [done|]. exists e. split; [|done].
       unfold URLFeatureExtractor.extract_features in Hf.
       destruct (urlparse url); [discriminate|]. result_simpl. congruence. }
  destruct (extract_features_Ok_inv _ _ Hf) as [parsed Hp].
  assert (∀ d : Q * string,
            (snd d = "Phishing" ∨ snd d = "Benign") →
            match (let '(confidence, prediction_label) := d in
                   ScanResult url prediction_label (round confidence 4)
                     (if String.eqb prediction_label "Phishing"
                      then "HIGH RISK: This URL is highly likely to be a phishing attempt. Do not proceed."
                      else "This URL appears to be legitimate.") false)
            with
            | ScanError _ _ => False
            | ScanResult url' prediction _ message fromCache =>
                url' = url ∧ fromCache = false ∧ true = true
                ∧ (∃ parsed, urlparse url = Ok parsed)
                ∧ ((prediction = "Phishing"
                    ∧ message = "HIGH RISK: This URL is highly likely to be a phishing attempt. Do not proceed.")
                   ∨ (prediction = "Benign"
                      ∧ message = "This URL appears to be legitimate."))
            end) as Hshape.
  { intros [c p] [Hl|Hl]; cbn [snd] in Hl; subst p; cbn [String.eqb];
      repeat split; eauto. }
  assert (∀ b : bool, (if b then "Phishing" else "Benign") = "Phishing"
                      ∨ (if b then "Phishing" else "Benign") = "Benign")
    as Hlabel by (intros []; auto).
  destruct (scan_decision model_loader w url features) as [d|e] eqn:Hd.
  - specialize (Hshape d). destruct d as [c p]. apply Hshape. cbn [snd].
    unfold scan_decision in Hd.
    destruct (get_model model_loader w) as [model|]; [|discriminate].
    result_simpl. destruct (is_None model).
    + apply Ok_inj in Hd. injection Hd as _ <-. apply Hlabel.
    + destruct (feature_matrix features); [|discriminate]. result_simpl.
      destruct (call_predict model a); [|discriminate]. result_simpl.
      destruct (index a0 0); [|discriminate]. result_simpl.
      destruct (call_predict_proba model a); [|discriminate]. result_simpl.
      destruct (index a2 0); [|discriminate]. result_simpl.
      destruct (phishing_entry a3); [|discriminate]. result_simpl.
      destruct (max a3); [|discriminate]. result_simpl.
      apply Ok_inj in Hd. injection Hd as _ <-. apply Hlabel.
  - specialize (Hshape (scan_fallback url)). apply Hshape.
    unfold scan_fallback. cbn [snd]. apply Hlabel.
Qed.

(** X14.  On the direct-scan surface a failure of the model is never an
    error: when the prediction call raises any exception, the answer is
    the substring rule of the handler (['phishing'] or ['secure-'] in the
    lower-cased URL) with confidence 0.75. *)
Theorem scan_url_direct_model_failure model_loader w url features fv model e :
  startswith url "http://" || startswith url "https://" = true →
  URLFeatureExtractor.extract_features url = Ok features →
  feature_matrix features = Ok fv →
  get_model model_loader w = Ok model →
  Spec.prediction_call_fails model fv e →
  let is_phishing :=
    contains "phishing" (lower url) || contains "secure-" (lower url) in
  scan_url_direct model_loader w url =
    ScanResult url (if is_phishing then "Phishing" else "Benign") 0.7500%Q
      (if is_phishing
       then "HIGH RISK: This URL is highly likely to be a phishing attempt. Do not proceed."
       else "This URL appears to be legitimate.")
      false.
Proof.
  intros Hs Hf Hv Hm Hfail is_phishing.
  unfold scan_url_direct, scan_decision. rewrite Hs, Hf. cbn [negb].
  rewrite Hm. result_simpl.
  assert (is_None model = false) as ->.
  { destruct model; [|done]. by destruct (get_model_not_None model_loader w). }
  rewrite Hv. result_simpl.
  assert (∀ k : list Z → result (Q * string),
            (∀ label labels, call_predict model fv = Ok (label :: labels) →
               k (label :: labels) = Raise e) →
            call_predict model fv ≫= k = Raise e) as Hk.
  { intros k Hk. destruct Hfail as [H|(label & labels & H1 & H2)].
    - by rewrite H.
    - rewrite H1. result_simpl. by apply Hk. }
  rewrite Hk.
  - unfold scan_fallback. fold is_phishing. by destruct is_phishing.
  - intros label labels H1. destruct Hfail as [H|(l' & ls' & _ & H2)].
    + congruence.
    + cbn [index lookup list_lookup]. result_simpl. by rewrite H2.
Qed.


End EndpointProperties.

(* ===================================================================== *)
(** * The training rows                                                   *)
(* ===================================================================== *)

Section TrainerProperties.
Import Main Trainer.
Context {L : Libraries}.

Lemma feature_values_kept url label :
  match feature_values url with
  | Ok values =>
      kept (url, label) = true ∧ length values = 30%nat
      ∧ ∃ features, URLFeatureExtractor.extract_features url = Ok features
                    ∧ feature_matrix features = Ok [values]
  | Raise _ => kept (url, label) = false
  end.
Proof.
  unfold feature_values, kept. cbn [fst].
  destruct (urlparse url) as [parsed|e] eqn:Hp.
  - destruct (extract_features_returns url parsed Hp) as [features Hf].
    rewrite Hf. result_simpl.
    destruct (feature_matrix_returns _ _ Hf) as (row & Hrow & Hlen).
    unfold feature_matrix in Hrow.
    destruct (mapM (getitem features) URLFeatureExtractor.get_feature_names)
      as [values|] eqn:Hm; [|discriminate].
    result_simpl. assert (values = row) as -> by congruence.
    split; [done|]. split; [done|]. exists features. split; [done|].
    unfold feature_matrix. by rewrite Hm.
  - by rewrite (extract_features_raises _ _ Hp).
Qed.

Lemma dataset_fold df X0 y0 :
  fold_left dataset_step df (X0, y0)
  = (X0 ++ fst (fold_left dataset_step df ([], [])),
     y0 ++ snd (fold_left dataset_step df ([], []))).
Proof.
  revert X0 y0. induction df as [|[url label] df IH]; intros X0 y0.
  - cbn. by rewrite !app_nil_r.
  - cbn [fold_left dataset_step]. destruct (feature_values url) as [values|].
    + rewrite (IH (X0 ++ [values])), (IH ([] ++ [values])). cbn [fst snd].
      by rewrite <- !app_assoc.
    + apply IH.
Qed.

(** X16.  [extract_features_from_dataset] drops exactly the rows whose
    URL [urlparse] rejects and keeps the others in order: [X] and [y]
    have the same length, [y] lists the labels of the kept rows, every
    row of [X] has 30 values, and the row of a URL is the row that
    [predict_url] builds for the same URL at inference time. *)
Theorem dataset_rows_match_inference df :
  let X := fst (extract_features_from_dataset df) in
  let y := snd (extract_features_from_dataset df) in
  length X = length y
  ∧ y = snd <$> List.filter kept df
  ∧ Forall (λ values, length values = 30%nat) X
  ∧ Forall2 (λ row values,
       ∃ features,
         URLFeatureExtractor.extract_features (fst row) = Ok features
         ∧ feature_matrix features = Ok [values])
      (List.filter kept df) X.
Proof.
  unfold extract_features_from_dataset.
  induction df as [|[url label] df (IH1 & IH2 & IH3 & IH4)].
  - cbn. repeat split; constructor.
  - cbn [fold_left dataset_step List.filter].
    pose proof (feature_values_kept url label) as Hk.
    destruct (feature_values url) as [values|].
    + destruct Hk as (-> & Hlen & Hrow). rewrite dataset_fold. cbn [fst snd app].
      split; [cbn [length]; by rewrite IH1|].
      split; [cbn [fmap list_fmap snd]; by rewrite IH2|].
      split; [by constructor|]. by constructor.
    + rewrite Hk. done.
Qed.

End TrainerProperties.

(* ===================================================================== *)
(** * Entropy and keywords                                                *)
(* ===================================================================== *)

Section EntropyProperties.
Import URLFeatureExtractor.

Lemma lower_char_idempotent c : lower_char (lower_char c) = lower_char c.
Proof. destruct c as [[] [] [] [] [] [] [] []]; reflexivity. Qed.

Lemma lower_idempotent s : lower (lower s) = lower s.
Proof.
  induction s as [|c s IH]; [done|]. cbn [lower].
  by rewrite lower_char_idempotent, IH.
Qed.

(** Counting a string of one repeated character keeps a single entry. *)
Lemma Counter_from_constant c n s :
  all_chars (Ascii.eqb c) s = true →
  Counter_from [(c, n)] s = [(c, (n + len s)%Z)].
Proof.
  revert n. unfold len. induction s as [|a s IH]; intros n Hall.
  - cbn. by rewrite Z.add_0_r.
  - cbn [all_chars] in Hall. apply andb_prop in Hall as [Ha Hall].
    apply Ascii.eqb_eq in Ha as <-.
    cbn [Counter_from counter_incr]. rewrite Ascii.eqb_refl.
    rewrite IH by done. cbn [String.length]. do 2 f_equal. lia.
Qed.

Context {L : Libraries}.

(** X17.  The entropy of the empty string is 0, and so is the entropy of
    a string that repeats one character, for every [log2] that is a
    function of the value of its argument and has [log2(1) = 0]. *)
Theorem entropy_of_constant_string c s :
  (∀ p q, p == q → math_log2 p == math_log2 q)%Q →
  (math_log2 1 == 0)%Q →
  all_chars (Ascii.eqb c) s = true →
  calculate_entropy "" = 0%Q
  ∧ (calculate_entropy (String c s) == 0)%Q.
Proof.
  intros Hproper Hone Hall. split; [reflexivity|].
  unfold calculate_entropy, Counter. cbn [Counter_from counter_incr].
  rewrite (Counter_from_constant c 1 s Hall). cbn [fold_left].
  assert (len (String c s) = 1 + len s)%Z as ->.
  { unfold len. cbn [String.length]. lia. }
  assert (0 < 1 + len s)%Z as Hn by (unfold len; lia).
  revert Hn. generalize (1 + len s)%Z. intros n Hn.
  assert (inject_Z n / inject_Z n == 1)%Q as Hp.
  { apply Qmult_inv_r. intros Hz.
    unfold Qeq, inject_Z in Hz. cbn [Qnum Qden] in Hz. lia. }
  destruct (Qle_bool (inject_Z n / inject_Z n) 0); cbn [negb]; [reflexivity|].
  rewrite (Hproper _ _ Hp), Hone. ring.
Qed.

(** X18.  The keyword flag does not depend on the case of the URL: a URL
    and its lower-cased form get the same [has_phishing_keyword]. *)
Theorem keyword_flag_ignores_case url features features' :
  extract_features url = Ok features →
  extract_features (lower url) = Ok features' →
  features !! "has_phishing_keyword" = features' !! "has_phishing_keyword".
Proof.
  intros H1 H2.
  destruct (extract_features_literal _ _ H1) as (_ & _ & _ & ->).
  destruct (extract_features_literal _ _ H2) as (_ & _ & _ & ->).
  by rewrite lower_idempotent.
Qed.

End EntropyProperties.

(* ===================================================================== *)
(** * The further properties at concrete inputs                           *)
(* ===================================================================== *)

Section FurtherWitnesses.
Import ModelLoader Main Endpoints.

Lemma extract_features_keys_witness :
  ∃ features,
    @URLFeatureExtractor.extract_features Scenario.reference
      "http://example.com/a/b?x=1&y=2" = Ok features
    ∧ size features = 30%nat.
Proof.
  destruct (extract_features_keys (L := Scenario.reference)
              "http://example.com/a/b?x=1&y=2"
              {| Urllib.scheme := "http"; Urllib.netloc := "example.com";
                 Urllib.path := "/a/b"; Urllib.params := "";
                 Urllib.query := "x=1&y=2"; Urllib.fragment := "" |} eq_refl)
    as (features & Hf & _ & Hsize & _).
  exists features. split; [exact Hf|exact Hsize].
Defined.

Lemma structural_defaults_after_tldextract_failure_witness :
  ∃ features,
    @URLFeatureExtractor.extract_features Failing.libraries
      "http://192.168.1.1/a/b?x=1" = Ok features
    ∧ features !! "is_ip_address" = Some (VInt 0)
    ∧ features !! "path_length" = Some (VInt 0).
Proof.
  destruct (extract_features_returns (L := Failing.libraries)
              "http://192.168.1.1/a/b?x=1"
              {| Urllib.scheme := "http"; Urllib.netloc := "192.168.1.1";
                 Urllib.path := "/a/b"; Urllib.params := "";
                 Urllib.query := "x=1"; Urllib.fragment := "" |} eq_refl)
    as [features Hf].
  pose proof (structural_defaults_after_tldextract_failure
                (L := Failing.libraries) "http://192.168.1.1/a/b?x=1"
                {| Urllib.scheme := "http"; Urllib.netloc := "192.168.1.1";
                   Urllib.path := "/a/b"; Urllib.params := "";
                   Urllib.query := "x=1"; Urllib.fragment := "" |}
                (OtherException "suffix list unavailable")
                features eq_refl eq_refl Hf)
    as Hall.
  exists features. split; [exact Hf|].
  rewrite Forall_forall in Hall.
  split; apply Hall; set_solver.
Defined.

Lemma protocol_flags_exclusive_witness :
  ∃ features a b,
    @URLFeatureExtractor.extract_features Scenario.reference
      "https://github.com" = Ok features
    ∧ features !! "has_https" = Some (VInt a)
    ∧ features !! "has_http" = Some (VInt b)
    ∧ (a + b ≤ 1)%Z.
Proof.
  destruct (extract_features_returns (L := Scenario.reference)
              "https://github.com"
              {| Urllib.scheme := "https"; Urllib.netloc := "github.com";
                 Urllib.path := ""; Urllib.params := ""; Urllib.query := "";
                 Urllib.fragment := "" |} eq_refl) as [features Hf].
  destruct (protocol_flags_exclusive (L := Scenario.reference) _ _ Hf)
    as (a & b & Ha & Hb & _ & _ & Hab).
  exists features, a, b. auto.
Defined.

Lemma digit_ratio_bounds_witness :
  ∃ features n,
    @URLFeatureExtractor.extract_features Scenario.reference
      "http://example.com/a1b2" = Ok features
    ∧ features !! "num_digits" = Some (VInt n)
    ∧ (0 ≤ n ≤ 23)%Z.
Proof.
  destruct (extract_features_returns (L := Scenario.reference)
              "http://example.com/a1b2" (parsed_http "example.com" "/a1b2")
              eq_refl) as [features Hf].
  destruct (digit_ratio_bounds (L := Scenario.reference) _ _ Hf)
    as (n & Hn & Hb & _).
  exists features, n. auto.
Defined.

Lemma path_and_query_counts_witness :
  ∃ features,
    @URLFeatureExtractor.extract_features Scenario.reference
      "http://example.com/a/b?x=1&y=2" = Ok features
    ∧ features !! "num_path_tokens" = Some (VInt 3)
    ∧ features !! "num_query_params" = Some (VInt 2).
Proof.
  destruct (extract_features_returns (L := Scenario.reference)
              "http://example.com/a/b?x=1&y=2"
              {| Urllib.scheme := "http"; Urllib.netloc := "example.com";
                 Urllib.path := "/a/b"; Urllib.params := "";
                 Urllib.query := "x=1&y=2"; Urllib.fragment := "" |} eq_refl)
    as [features Hf].
  destruct (path_and_query_counts (L := Scenario.reference)
              "http://example.com/a/b?x=1&y=2"
              {| Urllib.scheme := "http"; Urllib.netloc := "example.com";
                 Urllib.path := "/a/b"; Urllib.params := "";
                 Urllib.query := "x=1&y=2"; Urllib.fragment := "" |}
              {| subdomain := ""; domain := "http://example.com/a/b?x=1&y=2";
                 suffix := "" |}
              features eq_refl eq_refl Hf) as (Hp & Hq & _).
  exists features. split; [exact Hf|]. split; [exact Hp|exact Hq].
Defined.

Lemma at_symbol_features_agree_witness :
  ∃ features n,
    @URLFeatureExtractor.extract_features Scenario.reference
      "http://user@example.com/@" = Ok features
    ∧ features !! "num_at_symbols" = Some (VInt n)
    ∧ features !! "has_at_symbol" = Some (VInt (if (0 <? n)%Z then 1 else 0)).
Proof.
  destruct (extract_features_returns (L := Scenario.reference)
              "http://user@example.com/@" (parsed_http "user@example.com" "/@")
              eq_refl) as [features Hf].
  destruct (at_symbol_features_agree (L := Scenario.reference) _ _ Hf)
    as (n & Hn & _ & Hh).
  exists features, n. auto.
Defined.

Lemma load_model_storage_accesses_witness :
  io_log (snd (load_model (fst Service.imported) None (snd Service.imported)))
  = [PathExists Scenario.model_file; OpenRead Scenario.model_file]
  ∧ io_log (snd (load_model 0 None (Scenario.fresh_world ∅)))
    = [PathExists Scenario.model_file]
  ∧ io_log (snd (load_model (fst Service.stub) None (snd Service.stub)))
    = io_log (snd Service.stub).
Proof.
  split; [|split].
  - exact (proj2 (proj2 (proj2
             (load_model_storage_accesses (fst Service.imported) None
                (snd Service.imported) _ _
                (surjective_pairing
                   (load_model (fst Service.imported) None
                      (snd Service.imported))))))
             eq_refl (ex_intro _ (Ok (Some Scenario.stub_classifier)) eq_refl)).
  - exact (proj1 (proj1 (proj2 (proj2
             (load_model_storage_accesses 0 None (Scenario.fresh_world ∅) _ _
                (surjective_pairing
                   (load_model 0 None (Scenario.fresh_world ∅))))))
             eq_refl eq_refl)).
  - refine (f_equal io_log (proj1 (proj1 (proj2
             (load_model_storage_accesses (fst Service.stub) None
                (snd Service.stub) _ _
                (surjective_pairing
                   (load_model (fst Service.stub) None (snd Service.stub)))))
             _))).
    vm_compute. discriminate.
Defined.

Lemma failed_load_is_retried_witness :
  ∃ w1,
    load_model 0 None (Scenario.fresh_world Failing.corrupt_files)
    = (Raise (OtherException "invalid load key"), w1)
    ∧ get_model 0 w1
      = Raise (RuntimeError "Model not loaded. Call load_model() first.").
Proof.
  destruct (failed_load_is_retried 0 None
              (Scenario.fresh_world Failing.corrupt_files)
              (OtherException "invalid load key") eq_refl eq_refl)
    as (w1 & w2 & H1 & _ & H2 & _).
  exists w1. split; [exact H1|exact H2].
Defined.

Lemma pickled_None_is_not_a_model_witness :
  ∃ w1,
    load_model 0 None (Scenario.fresh_world Failing.none_files) = (Ok PyNone, w1)
    ∧ health_check 0 w1 = false.
Proof.
  destruct (pickled_None_is_not_a_model 0 None
              (Scenario.fresh_world Failing.none_files) eq_refl eq_refl)
    as (w1 & H1 & _ & H2).
  exists w1. split; [exact H1|exact H2].
Defined.

Lemma startup_loads_default_artifact_witness :
  health_check (fst Service.imported)
    (startup_event (fst Service.imported) (snd Service.imported)) = true.
Proof.
  apply (startup_loads_default_artifact (fst Service.imported)
           (snd Service.imported) eq_refl).
  exists Scenario.stub_classifier. reflexivity.
Defined.

Lemma health_endpoints_agree_witness :
  health_check_direct (snd Service.stub) = (true, snd Service.stub).
Proof.
  exact (health_endpoints_agree (fst Service.stub) (snd Service.stub) eq_refl).
Defined.

Lemma predict_url_extraction_failure_witness :
  @predict_url Scenario.reference (fst Service.stub) (snd Service.stub) "http://["
  = HTTPException 400 "Invalid IPv6 URL".
Proof.
  exact (predict_url_extraction_failure (L := Scenario.reference)
           (fst Service.stub) (snd Service.stub) "http://["
           (ValueError "Invalid IPv6 URL") eq_refl).
Defined.

Lemma scan_url_direct_model_failure_witness :
  @scan_url_direct Scenario.reference (fst Failing.broken) (snd Failing.broken)
    "http://secure-bank.example.com"
  = ScanResult "http://secure-bank.example.com" "Phishing" 0.7500%Q
      "HIGH RISK: This URL is highly likely to be a phishing attempt. Do not proceed."
      false.
Proof.
  destruct (extract_features_returns (L := Scenario.reference)
              "http://secure-bank.example.com"
              (parsed_http "secure-bank.example.com" "") eq_refl)
    as [features Hf].
  destruct (feature_matrix_returns _ _ Hf) as (row & Hrow & _).
  refine (scan_url_direct_model_failure (L := Scenario.reference)
            (fst Failing.broken) (snd Failing.broken)
            "http://secure-bank.example.com" features [row]
            (PyObject 1 Failing.broken_classifier)
            (OtherException "corrupt booster") eq_refl Hf Hrow _ _).
  - vm_compute; reflexivity.
  - left. reflexivity.
Defined.

Lemma entropy_of_constant_string_witness :
  (@URLFeatureExtractor.calculate_entropy Scenario.reference "aaaa" == 0)%Q.
Proof.
  refine (proj2 (entropy_of_constant_string (L := Scenario.reference)
                   "a" "aaa" _ _ eq_refl)).
  - intros p q _. reflexivity.
  - reflexivity.
Defined.

Lemma keyword_flag_ignores_case_witness :
  ∃ features features',
    @URLFeatureExtractor.extract_features Scenario.reference
      "http://example.com/LOGIN" = Ok features
    ∧ @URLFeatureExtractor.extract_features Scenario.reference
        "http://example.com/login" = Ok features'
    ∧ features !! "has_phishing_keyword" = features' !! "has_phishing_keyword".
Proof.
  destruct (extract_features_returns (L := Scenario.reference)
              "http://example.com/LOGIN" (parsed_http "example.com" "/LOGIN")
              eq_refl) as [features Hf].
  destruct (extract_features_returns (L := Scenario.reference)
              "http://example.com/login" (parsed_http "example.com" "/login")
              eq_refl) as [features' Hf'].
  exists features, features'. split; [exact Hf|]. split; [exact Hf'|].
  exact (keyword_flag_ignores_case (L := Scenario.reference)
           "http://example.com/LOGIN" features features' Hf Hf').
Defined.

End FurtherWitnesses.
